(** * ualBot: a Telegram assistant bot, embedded and verified

    The repository holds two variants of one program:
    - [src/bot.js], the long-polling bot (module [BotJs] below);
    - [src/unnamed/part_000], the webhook deployment (module [WebhookJs]).

    Both register callbacks on a [node-telegram-bot-api] bot object.  The
    embedding keeps the code's shape: every callback is a computation in a
    small state-and-exception monad over a [World] (the two MongoDB
    collections and the chronological trace of external calls); the outcome
    of each external call (store, Gemini, Google search, Telegram file API)
    is read from an [Env] record, so that theorems quantify over every
    behaviour of the collaborators.

    What the model leaves out: a callback is run to completion
    (interleavings of [async] callbacks at their [await]s, and the end of
    the process on an unhandled rejection, are not modelled); statements
    about a whole update use the serial run and are made where one
    callback at most has effects, or about what does not depend on the
    order; [bot.sendMessage], which the code never awaits, is recorded as
    issued, whatever Telegram then does with it.

    Strings are [Stdlib] strings: one [ascii] stands for one code unit, and
    text outside that range is carried as its UTF-8 bytes. *)

From Stdlib Require Import ZArith NArith List String Ascii Bool Lia.
From Stdlib.Strings Require Import Byte.
Import ListNotations.
Open Scope string_scope.

(* ================================================================== *)
(** * JavaScript library functions used by the bot *)
(* ================================================================== *)

Module Js.

(** [String.prototype.startsWith]. *)
Fixpoint startsWith (s p : string) {struct p} : bool :=
  match p with
  | EmptyString => true
  | String c p' =>
      match s with
      | EmptyString => false
      | String d s' => if Ascii.eqb c d then startsWith s' p' else false
      end
  end.

(** Drop the first [n] code units. *)
Fixpoint drop (n : nat) (s : string) : string :=
  match n with
  | O => s
  | S n' => match s with EmptyString => EmptyString | String _ s' => drop n' s' end
  end.

(** [String.prototype.endsWith]: the suffix of [s] of the length of [p]
    is compared with [p]. *)
Definition endsWith (s p : string) : bool :=
  if Nat.leb (String.length p) (String.length s)
  then String.eqb (drop (String.length s - String.length p) s) p
  else false.

(** Truthiness of a value that is a string or [undefined]. *)
Definition truthy (t : option string) : bool :=
  match t with
  | None => false
  | Some EmptyString => false
  | Some _ => true
  end.

(** A template-literal hole [${v}] for a value that may be [undefined]. *)
Definition tpl (v : option string) : string :=
  match v with
  | Some s => s
  | None => "undefined"
  end.

(** [a || b] on strings-or-undefined, with a string default. *)
Definition or_else (v : option string) (d : string) : string :=
  match v with
  | Some (String c s) => String c s
  | _ => d
  end.

(** [Array.prototype.slice(start, end)] for non-negative bounds. *)
Definition slice {A : Type} (l : list A) (start stop : nat) : list A :=
  firstn (stop - start) (skipn start l).

(** [Array.prototype.join(sep)] on an array of strings. *)
Fixpoint join (l : list string) (sep : string) : string :=
  match l with
  | [] => EmptyString
  | [x] => x
  | x :: rest => x ++ sep ++ join rest sep
  end.

(** [arr[arr.length - 1]]: [undefined] on an empty array, where the
    index is [-1]. *)
Definition last_elem {A : Type} (l : list A) : option A :=
  match l with
  | [] => None
  | _ => nth_error l (List.length l - 1)
  end.

Definition LF : ascii := ascii_of_nat 10.
Definition CR : ascii := ascii_of_nat 13.
Definition nl : string := String LF EmptyString.

(** The line terminators that are one code unit of the model: LF and
    CR. *)
Definition is_line_terminator (c : ascii) : bool :=
  Ascii.eqb c LF || Ascii.eqb c CR.

(** The text begins with a line terminator, which [.] does not match:
    LF, CR, U+2028 or U+2029; the last two are the bytes E2 80 A8 and
    E2 80 A9 in the texts of the model. *)
Definition at_line_terminator (s : string) : bool :=
  match s with
  | EmptyString => false
  | String c s' =>
      is_line_terminator c
      || (Ascii.eqb c (ascii_of_nat 226)
          && match s' with
             | String d (String e _) =>
                 Ascii.eqb d (ascii_of_nat 128)
                 && (Ascii.eqb e (ascii_of_nat 168) || Ascii.eqb e (ascii_of_nat 169))
             | _ => false
             end)
  end.

(** ** Regular expressions

    The three patterns of the bot are sequences of literal characters
    and one greedy capturing group [(.+)]. *)
Inductive Atom : Type :=
| AChar (c : ascii)
| ADotPlus.            (* the capturing group (.+) *)

Definition Regex : Type := list Atom.

Fixpoint lit (s : string) : Regex :=
  match s with
  | EmptyString => []
  | String c s' => AChar c :: lit s'
  end.

(** [dotplus k acc s]: the group has consumed [acc] and may
    consume more of [s]; greedy, so the longer match is tried first and
    the continuation [k] (the rest of the pattern) is tried on
    backtracking.  The result is the list of captures. *)
Fixpoint dotplus (k : string -> option (list string)) (acc : string) (s : string)
  : option (list string) :=
  let stop :=
    match acc with
    | EmptyString => None
    | _ => option_map (cons acc) (k s)
    end in
  match s with
  | EmptyString => stop
  | String c s' =>
      if at_line_terminator (String c s') then stop
      else match dotplus k (acc ++ String c EmptyString) s' with
           | Some r => Some r
           | None => stop
           end
  end.

(** Match the pattern at the start of [s]. *)
Fixpoint match_here (re : Regex) (s : string) : option (list string) :=
  match re with
  | [] => Some []
  | AChar c :: re' =>
      match s with
      | String d s' => if Ascii.eqb c d then match_here re' s' else None
      | EmptyString => None
      end
  | ADotPlus :: re' => dotplus (match_here re') EmptyString s
  end.

(** [RegExp.prototype.exec] for a pattern without the global flag: the
    leftmost position where the pattern matches; the result is the list
    of captures ([match[1]], [match[2]], ...), [None] for [null]. *)
Fixpoint exec (re : Regex) (s : string) : option (list string) :=
  match match_here re s with
  | Some caps => Some caps
  | None =>
      match s with
      | EmptyString => None
      | String _ s' => exec re s'
      end
  end.

(** ** Base64, as [Buffer.prototype.toString("base64")] *)

Definition b64_alphabet : string :=
  "ABCDEFGHIJKLMNOPQRSTUVWXYZabcdefghijklmnopqrstuvwxyz0123456789+/".

Definition b64_char (n : N) : ascii :=
  match String.get (N.to_nat n) b64_alphabet with
  | Some c => c
  | None => "="%char
  end.

Fixpoint b64_groups (fuel : nat) (bs : list N) : string :=
  match fuel with
  | O => EmptyString
  | S fuel' =>
      match bs with
      | [] => EmptyString
      | [a] =>
          String (b64_char (N.shiftr a 2))
            (String (b64_char (N.land (N.shiftl a 4) 63)) "==")
      | [a; b] =>
          String (b64_char (N.shiftr a 2))
            (String (b64_char (N.land (N.lor (N.shiftl a 4) (N.shiftr b 4)) 63))
               (String (b64_char (N.land (N.shiftl b 2) 63)) "="))
      | a :: b :: c :: rest =>
          String (b64_char (N.shiftr a 2))
            (String (b64_char (N.land (N.lor (N.shiftl a 4) (N.shiftr b 4)) 63))
               (String (b64_char (N.land (N.lor (N.shiftl b 2) (N.shiftr c 6)) 63))
                  (String (b64_char (N.land c 63)) (b64_groups fuel' rest))))
      end
  end.

Definition base64 (bs : list byte) : string :=
  b64_groups (S (List.length bs)) (map Byte.to_N bs).

End Js.

(* ================================================================== *)
(** * Data model *)
(* ================================================================== *)

(** Documents of the [User] collection ([userSchema]). *)
Module User.
Record t : Type := mk
  { chat_id : Z;
    first_name : option string;
    username : option string;
    phone_number : option string }.
End User.

(** Documents of the [Chat] collection ([chatSchema]); [timestamp]
    defaults to [Date.now] when the document is built. *)
Module Chat.
Record t : Type := mk
  { chat_id : Z;
    user_input : option string;
    bot_response : string;
    timestamp : Z }.
End Chat.

(** Telegram objects, with the fields the bot reads. *)
Module Tg.
Record ChatInfo : Type :=
  { id : Z; first_name : option string; username : option string }.
Record Contact : Type := { phone_number : string }.
Record PhotoSize : Type := { file_id : string }.
Record Message : Type :=
  { chat : ChatInfo;
    text : option string;
    contact : option Contact;
    photo : option (list PhotoSize) }.
Record File : Type := { file_path : option string }.
Record Button : Type := { b_text : string; request_contact : bool }.
Record ReplyMarkup : Type :=
  { keyboard : list (list Button); one_time_keyboard : bool }.
End Tg.

(** Requests to and results of [model.generateContent]. *)
Inductive Part : Type :=
| PText (t : option string)                  (* { text: t } *)
| PInlineData (data mimeType : string)       (* { inlineData: {data, mimeType} } *)
| PString (s : string).                      (* a bare string in an array request *)

Inductive GenRequest : Type :=
| ReqPrompt (prompt : string)                (* generateContent(prompt) *)
| ReqArray (parts : list Part)               (* generateContent([ ... ]) *)
| ReqContents (role : string) (parts : list Part).
                                             (* generateContent({contents: [{role, parts}]}) *)

(** What the bot reads of a result: [result.response.text()], where
    [None] means that the call throws, and the optional chain
    [result.candidates?.[0]?.content?.parts?.[0]?.text], where [None]
    means [undefined]. *)
Record GenResult : Type :=
  { response_text : option string;
    candidates_text : option string }.

Record Item : Type := { title : string; link : string }.

(** [response.data.items] of the search request: [None] when the field
    is absent, as in a response without results. *)
Record SearchData : Type := { items : option (list Item) }.

Inductive Exn : Type :=
| StoreError | GenerationError | SearchError | TransportError | TypeError.

(** External calls, in the order they are issued. *)
Inductive Event : Type :=
| EFindOne (chatId : Z)
| ESaveUser (u : User.t)
| EUpdateOne (chatId : Z) (phone : string)
| ESaveChat (c : Chat.t)
| EGenerate (model : string) (req : GenRequest)
| ESearch (q key cx : string)
| EGetFile (fileId : string)
| EDownload (url : string)
| ESend (chatId : Z) (text : string) (markup : option Tg.ReplyMarkup)
| ELog (what : string)
| EUnhandled (e : Exn).

(** The store and the trace. *)
Record World : Type :=
  { users : list User.t;
    chats : list Chat.t;
    trace : list Event }.

(** The collaborators: an environment fixes the answer of every external
    call, the process environment, and what [Date.now] reads when a
    document is built ([now], by document). *)
Record Env : Type :=
  { TELEGRAM_BOT_TOKEN : string;
    GOOGLE_API_KEY : string;
    SEARCH_ENGINE_ID : string;
    findOne_fails : Z -> bool;
    saveUser_fails : User.t -> bool;
    updateOne_fails : Z -> string -> bool;
    saveChat_fails : Chat.t -> bool;
    generateContent : string -> GenRequest -> option GenResult;
    customsearch : string -> option SearchData;
    getFile : string -> option Tg.File;
    download : string -> option (list byte);
    now : Z -> option string -> string -> Z }.

(* ================================================================== *)
(** * The monad of handler code *)
(* ================================================================== *)

Inductive Outcome (A : Type) : Type :=
| Returned (a : A)
| Thrown (e : Exn).
Arguments Returned {A} a.
Arguments Thrown {A} e.

Definition M (A : Type) : Type := World -> Outcome A * World.

Definition ret {A : Type} (a : A) : M A := fun w => (Returned a, w).

Definition bind {A B : Type} (c : M A) (k : A -> M B) : M B :=
  fun w =>
    match c w with
    | (Returned a, w') => k a w'
    | (Thrown e, w') => (Thrown e, w')
    end.

Definition throw {A : Type} (e : Exn) : M A := fun w => (Thrown e, w).

(** [try { body } catch (error) { handler }]: effects of the body up to
    the throw are kept. *)
Definition try_catch {A : Type} (body : M A) (handler : Exn -> M A) : M A :=
  fun w =>
    match body w with
    | (Returned a, w') => (Returned a, w')
    | (Thrown e, w') => handler e w'
    end.

Declare Scope js_scope.
Delimit Scope js_scope with js.
Notation "x <- c ;; k" := (bind c (fun x => k))
  (at level 61, c at next level, right associativity) : js_scope.
Notation "c ;; k" := (bind c (fun _ => k))
  (at level 61, right associativity) : js_scope.
Open Scope js_scope.

Definition record (e : Event) : M unit :=
  fun w => (Returned tt,
            {| users := users w; chats := chats w; trace := trace w ++ [e] |}).

Definition get_users : M (list User.t) := fun w => (Returned (users w), w).

Definition put_users (us : list User.t) : M unit :=
  fun w => (Returned tt, {| users := us; chats := chats w; trace := trace w |}).

Definition push_chat (c : Chat.t) : M unit :=
  fun w => (Returned tt,
            {| users := users w; chats := chats w ++ [c]; trace := trace w |}).

(** The value of a call that may fail: an awaited promise that rejects,
    or a call that throws, when the answer is [None]. *)
Definition value_or_throw {A : Type} (r : option A) (e : Exn) : M A :=
  match r with
  | Some a => ret a
  | None => throw e
  end.

(** ** The store (mongoose models) *)

(** The first document whose [chat_id] is the given one. *)
Fixpoint find_user (chatId : Z) (us : list User.t) : option User.t :=
  match us with
  | [] => None
  | u :: rest => if Z.eqb (User.chat_id u) chatId then Some u else find_user chatId rest
  end.

(** [updateOne] without [upsert]: the first matching document gets the
    new [phone_number]; nothing changes when none matches. *)
Fixpoint update_first (chatId : Z) (phone : string) (us : list User.t) : list User.t :=
  match us with
  | [] => []
  | u :: rest =>
      if Z.eqb (User.chat_id u) chatId
      then User.mk (User.chat_id u) (User.first_name u) (User.username u) (Some phone) :: rest
      else u :: update_first chatId phone rest
  end.

Section Primitives.
Variable env : Env.

Definition User_findOne (chatId : Z) : M (option User.t) :=
  record (EFindOne chatId) ;;
  if findOne_fails env chatId then throw StoreError
  else us <- get_users ;; ret (find_user chatId us).

Definition User_save (u : User.t) : M unit :=
  record (ESaveUser u) ;;
  if saveUser_fails env u then throw StoreError
  else us <- get_users ;; put_users (us ++ [u]).

Definition User_updateOne (chatId : Z) (phone : string) : M unit :=
  record (EUpdateOne chatId phone) ;;
  if updateOne_fails env chatId phone then throw StoreError
  else us <- get_users ;; put_users (update_first chatId phone us).

(** [new Chat({chat_id, user_input, bot_response})]: the [timestamp] is
    the reading of the clock when this document is built, which the
    environment fixes for each document. *)
Definition new_Chat (chatId : Z) (input : option string) (response : string) : Chat.t :=
  Chat.mk chatId input response (now env chatId input response).

Definition Chat_save (c : Chat.t) : M unit :=
  record (ESaveChat c) ;;
  if saveChat_fails env c then throw StoreError
  else push_chat c.

(** ** Gemini, Google search, Telegram *)

Definition model_generateContent (model : string) (req : GenRequest) : M GenResult :=
  record (EGenerate model req) ;;
  value_or_throw (generateContent env model req) GenerationError.

Definition axios_get_customsearch (q : string) : M SearchData :=
  record (ESearch q (GOOGLE_API_KEY env) (SEARCH_ENGINE_ID env)) ;;
  value_or_throw (customsearch env q) SearchError.

Definition bot_getFile (fileId : string) : M Tg.File :=
  record (EGetFile fileId) ;;
  value_or_throw (getFile env fileId) TransportError.

Definition axios_get_arraybuffer (url : string) : M (list byte) :=
  record (EDownload url) ;;
  value_or_throw (download env url) TransportError.

(** [bot.sendMessage] is never awaited: the request is issued and the
    handler goes on, whatever becomes of the returned promise. *)
Definition bot_sendMessage (chatId : Z) (text : string)
           (markup : option Tg.ReplyMarkup) : M unit :=
  record (ESend chatId text markup).

Definition console_error (what : string) : M unit := record (ELog what).

End Primitives.

(** Reading a property of [undefined] throws a [TypeError]. *)
Definition defined {A : Type} (v : option A) : M A := value_or_throw v TypeError.

(* ================================================================== *)
(** * The dispatch of [node-telegram-bot-api]

    [bot.on(event, callback)] and [bot.onText(regexp, callback)] fill two
    registries; [processUpdate] emits ["message"], then the event of the
    message's type, then runs every text callback whose pattern matches
    (the option [onlyFirstMatch] is not set by either variant). *)
(* ================================================================== *)

Inductive Handler : Type :=
| HRegistration | HContact | HHelp | HChat | HSearch | HImage.

Record Bot : Type :=
  { listeners : list (string * Handler * (Tg.Message -> M unit));
    textRegexpCallbacks :
      list (Js.Regex * Handler * (Tg.Message -> list string -> M unit)) }.

(** [metadata.type]: the first of the library's message types that is a
    truthy field of the message; of the fields modelled, ["text"] comes
    before ["contact"], which comes before ["photo"]. *)
Definition message_type (msg : Tg.Message) : option string :=
  if Js.truthy (Tg.text msg) then Some "text"
  else match Tg.contact msg with
       | Some _ => Some "contact"
       | None =>
           match Tg.photo msg with
           | Some _ => Some "photo"
           | None => None
           end
       end.

(** The callbacks [emit(event, msg)] calls, in registration order. *)
Definition emitted (bot : Bot) (event : string) (msg : Tg.Message)
  : list (Handler * M unit) :=
  flat_map (fun l => match l with
                     | (ev, h, cb) => if String.eqb ev event then [(h, cb msg)] else []
                     end)
           (listeners bot).

(** The text callbacks whose pattern matches [message.text]. *)
Definition matched (bot : Bot) (msg : Tg.Message) : list (Handler * M unit) :=
  match Tg.text msg with
  | Some t =>
      if Js.truthy (Some t) then
        flat_map (fun r => match r with
                           | (re, h, cb) =>
                               match Js.exec re t with
                               | Some caps => [(h, cb msg caps)]
                               | None => []
                               end
                           end)
                 (textRegexpCallbacks bot)
      else []
  | None => []
  end.

(** All callbacks invoked for one message update, in order. *)
Definition dispatch (bot : Bot) (msg : Tg.Message) : list (Handler * M unit) :=
  emitted bot "message" msg
  ++ match message_type msg with
     | Some ty => emitted bot ty msg
     | None => []
     end
  ++ matched bot msg.

(** One callback run to completion.  A callback that throws (an [async]
    callback whose promise rejects) leaves an unhandled rejection, which
    is recorded; what the runtime then does (a warning, or from Node 15 on
    the end of the process) is not modelled: the serial run goes on. *)
Definition run_callback (c : M unit) (w : World) : World :=
  match c w with
  | (Returned _, w') => w'
  | (Thrown e, w') =>
      {| users := users w'; chats := chats w'; trace := trace w' ++ [EUnhandled e] |}
  end.

(** The serial run of an update: the callbacks of [dispatch], in the
    order in which the library calls them, each run to completion before
    the next.  The program lets [async] callbacks interleave at their
    [await]s; the serial run is the program's run when at most one of
    the callbacks invoked has effects, and no statement below relies on
    the order of the effects of two callbacks that act. *)
Definition processUpdate (bot : Bot) (msg : Tg.Message) (w : World) : World :=
  fold_left (fun w c => run_callback (snd c) w) (dispatch bot msg) w.

Definition handlers_invoked (bot : Bot) (msg : Tg.Message) : list Handler :=
  map fst (dispatch bot msg).

(** ** Observations on a trace *)

(** The messages sent, as (chat, text) pairs. *)
Fixpoint sent (tr : list Event) : list (Z * string) :=
  match tr with
  | [] => []
  | ESend c t _ :: rest => (c, t) :: sent rest
  | _ :: rest => sent rest
  end.

(* ================================================================== *)
(** * [src/bot.js]: the long-polling bot *)
(* ================================================================== *)

Module BotJs.

Definition share_keyboard : Tg.ReplyMarkup :=
  {| Tg.keyboard := [[ {| Tg.b_text := "Share Phone Number"; Tg.request_contact := true |} ]];
     Tg.one_time_keyboard := true |}.

Definition hide_keyboard : Tg.ReplyMarkup :=
  {| Tg.keyboard := [[ {| Tg.b_text := EmptyString; Tg.request_contact := false |} ]];
     Tg.one_time_keyboard := false |}.

Definition welcome (firstName : option string) : string :=
  "Welcome, " ++ Js.tpl firstName
    ++ "! You can ask questions to this bot. Feel free to drop any questions here".
Definition contact_request : string :=
  "To continue chatting, please share your Phone Number by clicking the button next to the typing area.".
Definition welcome_back (firstName : option string) : string :=
  "Welcome back " ++ Js.tpl firstName
    ++ "! Please ask a question. I will be happy to assist you!!".
Definition phone_saved : string :=
  "Phone number saved successfully! Now you can start asking questions.".
Definition help_text : string :=
  "This bot can perform the following tasks: " ++ Js.nl
    ++ " 1. Enter /start to start the bot. " ++ Js.nl
    ++ " 2. Type any question to ask. " ++ Js.nl
    ++ " 3. Send an image for analysis. " ++ Js.nl
    ++ " 4. Before your questions, if you include /websearch you will get top 3 results from the web and their summary. ".
Definition chat_apology : string :=
  "Sorry, I couldn't process your request. Please try again later.".
Definition search_error : string := "Error fetching search results.".
Definition image_error : string := "Error analyzing the image.".

(** [item => `${item.title}\n${item.link}`] *)
Definition render_item (item : Item) : string :=
  title item ++ Js.nl ++ link item.

(** [items.slice(0, 3).map(...).join('\n\n')] *)
Definition render_results (its : list Item) : string :=
  Js.join (map render_item (Js.slice its 0 3)) (Js.nl ++ Js.nl).

Definition search_reply (searchResults summary : string) : string :=
  "ðŸ” Top search results:" ++ Js.nl ++ Js.nl ++ searchResults
    ++ Js.nl ++ Js.nl ++ "ðŸ“ Summary:" ++ Js.nl ++ Js.nl ++ summary.

Definition image_reply (description : string) : string :=
  "ðŸ–¼ Image Analysis: " ++ description.

(** The MIME type chosen for a file path. *)
Definition mimeType_of (file_path : string) : string :=
  if Js.endsWith file_path ".png" then "image/png"
  else if Js.endsWith file_path ".webp" then "image/webp"
  else "image/jpeg".

Definition re_start : Js.Regex := Js.lit "/start".
Definition re_help : Js.Regex := Js.lit "/help".
Definition re_websearch : Js.Regex := (Js.lit "/websearch " ++ [Js.ADotPlus])%list.

Section Handlers.
Variable env : Env.

(** [bot.onText(/\/start/, async (msg) => ...)] *)
Definition onStart (msg : Tg.Message) (_ : list string) : M unit :=
  let chatId := Tg.id (Tg.chat msg) in
  let firstName := Tg.first_name (Tg.chat msg) in
  let username := Tg.username (Tg.chat msg) in
  user <- User_findOne env chatId ;;
  match user with
  | None =>
      User_save env (User.mk chatId firstName username None) ;;
      bot_sendMessage chatId (welcome firstName) None ;;
      bot_sendMessage chatId contact_request (Some share_keyboard)
  | Some _ =>
      bot_sendMessage chatId (welcome_back firstName) None
  end.

(** [bot.on("contact", async (msg) => ...)] *)
Definition onContact (msg : Tg.Message) : M unit :=
  let chatId := Tg.id (Tg.chat msg) in
  contact <- defined (Tg.contact msg) ;;
  let phoneNumber := Tg.phone_number contact in
  User_updateOne env chatId phoneNumber ;;
  bot_sendMessage chatId phone_saved (Some hide_keyboard).

(** [bot.onText(/\/help/, (msg) => ...)] *)
Definition onHelp (msg : Tg.Message) (_ : list string) : M unit :=
  let chatId := Tg.id (Tg.chat msg) in
  bot_sendMessage chatId help_text None.

(** The [try] block of the message callback and its [catch]. *)
Definition chat (chatId : Z) (text : option string) : M unit :=
  try_catch
    (result <- model_generateContent env "gemini-pro" (ReqContents "user" [PText text]) ;;
     response <- value_or_throw (response_text result) GenerationError ;;
     Chat_save env (new_Chat env chatId text response) ;;
     bot_sendMessage chatId response None)
    (fun error =>
       console_error "Error generating content:" ;;
       bot_sendMessage chatId chat_apology None).

(** [text && text.startsWith(p)] *)
Definition text_startsWith (text : option string) (p : string) : bool :=
  match text with
  | Some t => Js.truthy text && Js.startsWith t p
  | None => false
  end.

(** [bot.on("message", async (msg) => ...)] *)
Definition onMessage (msg : Tg.Message) : M unit :=
  let chatId := Tg.id (Tg.chat msg) in
  let text := Tg.text msg in
  if text_startsWith text "/start" then ret tt
  else if text_startsWith text "/websearch" then ret tt
  else if negb (Js.truthy text) then ret tt
  else chat chatId text.

(** [bot.onText(/\/websearch (.+)/, async (msg, match) => ...)];
    [match[1]] is the capture of the one group of the pattern. *)
Definition onWebsearch (msg : Tg.Message) (match_ : list string) : M unit :=
  let chatId := Tg.id (Tg.chat msg) in
  let query := nth 0 match_ EmptyString in
  try_catch
    (response <- axios_get_customsearch env query ;;
     its <- defined (items response) ;;
     let searchResults := render_results its in
     let prompt := "Summarize the following search results:" ++ Js.nl ++ Js.nl ++ searchResults in
     result <- model_generateContent env "gemini-pro" (ReqPrompt prompt) ;;
     summary <- value_or_throw (response_text result) GenerationError ;;
     Chat_save env (new_Chat env chatId (Some query) summary) ;;
     bot_sendMessage chatId (search_reply searchResults summary) None)
    (fun error =>
       console_error "Error fetching search results:" ;;
       bot_sendMessage chatId search_error None).

(** The [try] block of the photo callback and its [catch]. *)
Definition analyze (chatId : Z) (fileId : string) : M unit :=
  try_catch
    (file <- bot_getFile env fileId ;;
     let fileUrl := "https://api.telegram.org/file/bot" ++ TELEGRAM_BOT_TOKEN env
                      ++ "/" ++ Js.tpl (Tg.file_path file) in
     path <- defined (Tg.file_path file) ;;
     let mimeType := mimeType_of path in
     data <- axios_get_arraybuffer env fileUrl ;;
     let base64Image := Js.base64 data in
     result <- model_generateContent env "gemini-1.5-pro"
                 (ReqArray [PInlineData base64Image mimeType;
                            PString "Describe this image in brief."]) ;;
     description <- value_or_throw (response_text result) GenerationError ;;
     Chat_save env (new_Chat env chatId (Some "image") description) ;;
     bot_sendMessage chatId (image_reply description) None)
    (fun error =>
       console_error "Error analyzing image:" ;;
       bot_sendMessage chatId image_error None).

(** [bot.on("photo", async (msg) => ...)]: the file id is read
    before the [try]. *)
Definition onPhoto (msg : Tg.Message) : M unit :=
  let chatId := Tg.id (Tg.chat msg) in
  photo <- defined (Tg.photo msg) ;;
  largest <- defined (Js.last_elem photo) ;;
  let fileId := Tg.file_id largest in
  analyze chatId fileId.

(** The bot object after the registrations of the file, in order. *)
Definition bot : Bot :=
  {| listeners :=
       [ ("contact", HContact, onContact);
         ("message", HChat, onMessage);
         ("photo", HImage, onPhoto) ];
     textRegexpCallbacks :=
       [ (re_start, HRegistration, onStart);
         (re_help, HHelp, onHelp);
         (re_websearch, HSearch, onWebsearch) ] |}.

End Handlers.
End BotJs.

(* ================================================================== *)
(** * [src/unnamed/part_000]: the webhook deployment

    The webhook route calls [bot.processUpdate(req.body)] and answers
    200 at once; the callbacks below are what [processUpdate] runs. *)
(* ================================================================== *)

Module WebhookJs.

Definition share_keyboard : Tg.ReplyMarkup :=
  {| Tg.keyboard := [[ {| Tg.b_text := "Share Phone Number"; Tg.request_contact := true |} ]];
     Tg.one_time_keyboard := true |}.

Definition welcome (firstName : option string) : string :=
  "Welcome, " ++ Js.tpl firstName ++ "! You can ask me anything.".
Definition contact_request : string :=
  "Please share your phone number by clicking the button below.".
Definition welcome_back (firstName : option string) : string :=
  "Welcome back, " ++ Js.tpl firstName ++ "! Ask me anything.".
Definition phone_saved : string := "Phone number saved! You can now start chatting.".
Definition chat_fallback : string := "Sorry, I couldn't understand that.".
Definition chat_apology : string := "Sorry, I couldn't process your request.".
Definition summary_fallback : string := "No summary available.".
Definition description_fallback : string := "No description available.".
Definition search_error : string := "Error fetching search results.".
Definition image_error : string := "Error analyzing the image.".

Definition render_item (item : Item) : string :=
  title item ++ Js.nl ++ link item.

Definition render_results (its : list Item) : string :=
  Js.join (map render_item (Js.slice its 0 3)) (Js.nl ++ Js.nl).

Definition search_reply (searchResults summary : string) : string :=
  "🔍 Search Results:" ++ Js.nl ++ Js.nl ++ searchResults
    ++ Js.nl ++ Js.nl ++ "📝 Summary:" ++ Js.nl ++ summary.

Definition image_reply (description : string) : string :=
  "🖼 Image Analysis: " ++ description.

Definition mimeType_of (file_path : string) : string :=
  if Js.endsWith file_path ".png" then "image/png" else "image/jpeg".

Definition re_start : Js.Regex := Js.lit "/start".
Definition re_websearch : Js.Regex := (Js.lit "/websearch " ++ [Js.ADotPlus])%list.

Section Handlers.
Variable env : Env.

(** [bot.onText(/\/start/, async (msg) => ...)] *)
Definition onStart (msg : Tg.Message) (_ : list string) : M unit :=
  let chatId := Tg.id (Tg.chat msg) in
  let firstName := Tg.first_name (Tg.chat msg) in
  let username := Tg.username (Tg.chat msg) in
  user <- User_findOne env chatId ;;
  match user with
  | None =>
      User_save env (User.mk chatId firstName username None) ;;
      bot_sendMessage chatId (welcome firstName) None ;;
      bot_sendMessage chatId contact_request (Some share_keyboard)
  | Some _ =>
      bot_sendMessage chatId (welcome_back firstName) None
  end.

(** [bot.on("contact", async (msg) => ...)] *)
Definition onContact (msg : Tg.Message) : M unit :=
  let chatId := Tg.id (Tg.chat msg) in
  contact <- defined (Tg.contact msg) ;;
  let phoneNumber := Tg.phone_number contact in
  User_updateOne env chatId phoneNumber ;;
  bot_sendMessage chatId phone_saved None.

(** [bot.on("message", async (msg) => ...)]: no test on the text. *)
Definition onMessage (msg : Tg.Message) : M unit :=
  let chatId := Tg.id (Tg.chat msg) in
  let text := Tg.text msg in
  try_catch
    (result <- model_generateContent env "gemini-1.5-pro" (ReqContents "user" [PText text]) ;;
     let response := Js.or_else (candidates_text result) chat_fallback in
     Chat_save env (new_Chat env chatId text response) ;;
     bot_sendMessage chatId response None)
    (fun error =>
       console_error "Error generating content:" ;;
       bot_sendMessage chatId chat_apology None).

(** [bot.onText(/\/websearch (.+)/, async (msg, match) => ...)] *)
Definition onWebsearch (msg : Tg.Message) (match_ : list string) : M unit :=
  let chatId := Tg.id (Tg.chat msg) in
  let query := nth 0 match_ EmptyString in
  try_catch
    (response <- axios_get_customsearch env query ;;
     its <- defined (items response) ;;
     let searchResults := render_results its in
     result <- model_generateContent env "gemini-1.5-pro"
                 (ReqContents "user" [PText (Some ("Summarize this: " ++ searchResults))]) ;;
     let summary := Js.or_else (candidates_text result) summary_fallback in
     Chat_save env (new_Chat env chatId (Some query) summary) ;;
     bot_sendMessage chatId (search_reply searchResults summary) None)
    (fun error =>
       console_error "Error fetching search results:" ;;
       bot_sendMessage chatId search_error None).

(** The [try] block of the photo callback and its [catch]. *)
Definition analyze (chatId : Z) (fileId : string) : M unit :=
  try_catch
    (file <- bot_getFile env fileId ;;
     let fileUrl := "https://api.telegram.org/file/bot" ++ TELEGRAM_BOT_TOKEN env
                      ++ "/" ++ Js.tpl (Tg.file_path file) in
     path <- defined (Tg.file_path file) ;;
     let mimeType := mimeType_of path in
     data <- axios_get_arraybuffer env fileUrl ;;
     let base64Image := Js.base64 data in
     result <- model_generateContent env "gemini-1.5-pro"
                 (ReqContents "user" [PInlineData base64Image mimeType;
                                      PText (Some "Describe this image briefly.")]) ;;
     let description := Js.or_else (candidates_text result) description_fallback in
     Chat_save env (new_Chat env chatId (Some "image") description) ;;
     bot_sendMessage chatId (image_reply description) None)
    (fun error =>
       console_error "Error analyzing image:" ;;
       bot_sendMessage chatId image_error None).

(** [bot.on("photo", async (msg) => ...)] *)
Definition onPhoto (msg : Tg.Message) : M unit :=
  let chatId := Tg.id (Tg.chat msg) in
  photo <- defined (Tg.photo msg) ;;
  largest <- defined (Js.last_elem photo) ;;
  let fileId := Tg.file_id largest in
  analyze chatId fileId.

Definition bot : Bot :=
  {| listeners :=
       [ ("contact", HContact, onContact);
         ("message", HChat, onMessage);
         ("photo", HImage, onPhoto) ];
     textRegexpCallbacks :=
       [ (re_start, HRegistration, onStart);
         (re_websearch, HSearch, onWebsearch) ] |}.

End Handlers.
End WebhookJs.

(* ================================================================== *)
(** * Concrete updates and environments *)
(* ================================================================== *)

Module Scenario.

Definition ana : Tg.ChatInfo :=
  {| Tg.id := 42; Tg.first_name := Some "Ana"; Tg.username := Some "ana" |}.

Definition text_update (t : string) : Tg.Message :=
  {| Tg.chat := ana; Tg.text := Some t; Tg.contact := None; Tg.photo := None |}.

Definition contact_update (phone : string) : Tg.Message :=
  {| Tg.chat := ana; Tg.text := None;
     Tg.contact := Some {| Tg.phone_number := phone |}; Tg.photo := None |}.

Definition photo_update (sizes : list Tg.PhotoSize) : Tg.Message :=
  {| Tg.chat := ana; Tg.text := None; Tg.contact := None; Tg.photo := Some sizes |}.

Definition two_sizes : list Tg.PhotoSize :=
  [ {| Tg.file_id := "small" |}; {| Tg.file_id := "large" |} ].

Definition empty_world : World := {| users := []; chats := []; trace := [] |}.

Definition ana_doc : User.t := User.mk 42 (Some "Ana") (Some "ana") None.

Definition registered_world : World :=
  {| users := [ana_doc]; chats := []; trace := [] |}.

(** A completion whose text is [t], read either way. *)
Definition completion (t : string) : GenResult :=
  {| response_text := Some t; candidates_text := Some t |}.

Definition three_items : list Item :=
  [ {| title := "Ownership"; link := "https://a.example/1" |};
    {| title := "Borrowing"; link := "https://b.example/2" |};
    {| title := "Lifetimes"; link := "https://c.example/3" |} ].

(** An environment with constant answers. *)
Definition mk_env (users_down chats_down : bool) (ai : option GenResult)
           (found : option SearchData) (file : option Tg.File)
           (bytes : option (list byte)) : Env :=
  {| TELEGRAM_BOT_TOKEN := "TOKEN";
     GOOGLE_API_KEY := "KEY";
     SEARCH_ENGINE_ID := "CX";
     findOne_fails := fun _ => users_down;
     saveUser_fails := fun _ => users_down;
     updateOne_fails := fun _ _ => users_down;
     saveChat_fails := fun _ => chats_down;
     generateContent := fun _ _ => ai;
     customsearch := fun _ => found;
     getFile := fun _ => file;
     download := fun _ => bytes;
     now := fun _ _ _ => 1700000000%Z |}.

Definition jpg_file : Tg.File := {| Tg.file_path := Some "photos/file_7.jpg" |}.

(** Every collaborator answers; the model says [t]. *)
Definition all_up (t : string) : Env :=
  mk_env false false (Some (completion t))
         (Some {| items := Some three_items |}) (Some jpg_file) (Some [x4d; x61; x6e]).

(** As [all_up], but the [Chat] collection rejects writes. *)
Definition chats_down (t : string) : Env :=
  mk_env false true (Some (completion t))
         (Some {| items := Some three_items |}) (Some jpg_file) (Some [x4d; x61; x6e]).

(** As [all_up], but the [User] collection is unreachable. *)
Definition users_down (t : string) : Env :=
  mk_env true false (Some (completion t))
         (Some {| items := Some three_items |}) (Some jpg_file) (Some [x4d; x61; x6e]).

(** As [all_up], but the model call rejects. *)
Definition ai_down : Env :=
  mk_env false false None
         (Some {| items := Some three_items |}) (Some jpg_file) (Some [x4d; x61; x6e]).

(** As [all_up], but the search response carries an empty [items]
    array. *)
Definition empty_items (t : string) : Env :=
  mk_env false false (Some (completion t))
         (Some {| items := Some [] |}) (Some jpg_file) (Some [x4d; x61; x6e]).

End Scenario.

(** The number of messages a callback sends when run from [w]. *)
Definition replies_of (c : M unit) (w : World) : nat :=
  List.length (sent (trace (snd (c w)))) - List.length (sent (trace w)).

(** A serial run of the bot: the updates are processed in order, each
    to its end before the next and against its own environment.  The
    program does not wait between updates; serial runs are its runs in
    which no two updates are in flight together. *)
Definition process_all (bot : Env -> Bot) (updates : list (Env * Tg.Message))
           (w : World) : World :=
  fold_left (fun w u => processUpdate (bot (fst u)) (snd u) w) updates w.

(** The world [w] after more documents were appended to the [Chat]
    collection and more external calls were issued. *)
Definition extend (w : World) (turns : list Chat.t) (calls : list Event) : World :=
  {| users := users w; chats := chats w ++ turns; trace := trace w ++ calls |}.

(* ================================================================== *)
(** * Statements in the words of the specification *)
(* ================================================================== *)

(** "The path ends in [suffix]". *)
Definition ends_in (path suffix : string) : Prop :=
  exists stem, path = stem ++ suffix.

(** "The text contains [sub] as a substring anywhere". *)
Definition contains (text sub : string) : Prop :=
  exists before after, text = before ++ sub ++ after.

(** "A User record with that chat_id exists in the store". *)
Definition registered (chatId : Z) (us : list User.t) : Prop :=
  exists u, In u us /\ User.chat_id u = chatId.

(** No two documents of the [User] collection share a [chat_id]. *)
Definition unique_chat_ids (us : list User.t) : Prop :=
  NoDup (map User.chat_id us).

(** A callback that keeps chat_ids unique in the [User] collection. *)
Definition keeps_unique (c : M unit) : Prop :=
  forall w, unique_chat_ids (users w) -> unique_chat_ids (users (snd (c w))).

(** One result "rendered as the title, a newline, and the link". *)
Definition title_newline_link (item : Item) : string :=
  title item ++ String (ascii_of_nat 10) (link item).

(** A blank line between two rendered results: the line break that ends
    the first and an empty line. *)
Definition blank_line : string :=
  String (ascii_of_nat 10) (String (ascii_of_nat 10) EmptyString).

(** "At most the first 3 results, [...] joined with a blank line between
    consecutive results, preserving the order". *)
Definition first_three_rendered (results : list Item) : string :=
  match results with
  | [] => EmptyString
  | [r1] => title_newline_link r1
  | [r1; r2] => title_newline_link r1 ++ blank_line ++ title_newline_link r2
  | r1 :: r2 :: r3 :: _ =>
      title_newline_link r1 ++ blank_line ++ title_newline_link r2
        ++ blank_line ++ title_newline_link r3
  end.

(* ================================================================== *)
(** * Vocabulary for the properties beyond the specification *)
(* ================================================================== *)

(** The longest prefix of a text that stops before the first line
    terminator: the rest of the current line. *)
Fixpoint line_prefix (s : string) : string :=
  match s with
  | EmptyString => EmptyString
  | String c s' =>
      if Js.at_line_terminator (String c s') then EmptyString
      else String c (line_prefix s')
  end.

(** A text without line terminator. *)
Definition single_line (s : string) : Prop := line_prefix s = s.

(** The text has an occurrence of [/websearch ] followed by a character
    that is not a line terminator. *)
Definition has_search_argument (t : string) : Prop :=
  exists before after,
    t = before ++ "/websearch " ++ after
    /\ after <> EmptyString
    /\ Js.at_line_terminator after = false.

(** What of a [User] record no callback changes. *)
Definition identity (u : User.t) : Z * option string * option string :=
  (User.chat_id u, User.first_name u, User.username u).

(** How the processing of one update of chat [chatId] may change the
    world from [w] to [w']: turns of that chat are appended, calls are appended and their messages go to that chat,
    records of that chat may be appended, the identity of the existing
    records stays, and the records of the other chats stay as they are. *)
Definition footprint (chatId : Z) (w w' : World) : Prop :=
  exists turns calls added,
    chats w' = (chats w ++ turns)%list
    /\ trace w' = (trace w ++ calls)%list
    /\ map identity (users w') = (map identity (users w) ++ added)%list
    /\ Forall (fun t => Chat.chat_id t = chatId) turns
    /\ Forall (fun m => fst m = chatId) (sent calls)
    /\ Forall (fun i => fst (fst i) = chatId) added
    /\ (forall u, In u (users w) -> User.chat_id u <> chatId -> In u (users w')).

(** The number of model calls in a trace. *)
Fixpoint generations (tr : list Event) : nat :=
  match tr with
  | [] => 0
  | EGenerate _ _ :: rest => S (generations rest)
  | _ :: rest => generations rest
  end.

(** The two ends of a callback that answers: either nothing was stored
    and the fixed [error] message was sent, or one turn was stored, for
    this chat and this [input], and the message sent shows the stored
    response ([shown response reply]). *)
Definition turn_matches_reply (chatId : Z) (input : option string) (error : string)
           (shown : string -> string -> Prop) (w w' : World) : Prop :=
  (chats w' = chats w
   /\ sent (trace w') = (sent (trace w) ++ [(chatId, error)])%list)
  \/ (exists turn reply,
         chats w' = (chats w ++ [turn])%list
         /\ sent (trace w') = (sent (trace w) ++ [(chatId, reply)])%list
         /\ Chat.chat_id turn = chatId
         /\ Chat.user_input turn = input
         /\ shown (Chat.bot_response turn) reply).

(* ================================================================== *)
(** * Properties of the JavaScript functions *)
(* ================================================================== *)


Example base64_Man : Js.base64 [x4d; x61; x6e] = "TWFu".
Proof. reflexivity. Qed.
Example base64_Ma : Js.base64 [x4d; x61] = "TWE=".
Proof. reflexivity. Qed.
Example base64_M : Js.base64 [x4d] = "TQ==".
Proof. reflexivity. Qed.
Example exec_ws : Js.exec (Js.lit "/websearch " ++ [Js.ADotPlus])%list "x /websearch rust ownership" = Some ["rust ownership"].
Proof. reflexivity. Qed.
Example exec_ws2 : Js.exec (Js.lit "/websearch " ++ [Js.ADotPlus])%list "/websearch " = None.
Proof. reflexivity. Qed.

Lemma append_nil_r (s : string) : s ++ EmptyString = s.
Proof. induction s as [|c s IH]; simpl; [reflexivity | now rewrite IH]. Qed.

Lemma append_assoc (a b c : string) : (a ++ b) ++ c = a ++ b ++ c.
Proof. induction a as [|x a IH]; simpl; [reflexivity | now rewrite IH]. Qed.

Lemma length_append (a b : string) :
  String.length (a ++ b) = String.length a + String.length b.
Proof. induction a as [|x a IH]; simpl; [reflexivity | now rewrite IH]. Qed.

Lemma startsWith_spec (s p : string) :
  Js.startsWith s p = true <-> exists rest, s = p ++ rest.
Proof.
  revert s. induction p as [|c p IH]; intros s; simpl.
  - split; [intros _; now exists s | reflexivity].
  - destruct s as [|d s].
    + split; [discriminate | intros [r Hr]; discriminate].
    + destruct (Ascii.eqb_spec c d) as [->|Hne].
      * rewrite IH. split; intros [r Hr]; exists r; [now rewrite Hr | now inversion Hr].
      * split; [discriminate | intros [r Hr]; inversion Hr; congruence].
Qed.

Lemma drop_split (n : nat) (s : string) : exists q, s = q ++ Js.drop n s.
Proof.
  revert s. induction n as [|n IH]; intros s; simpl.
  - now exists EmptyString.
  - destruct s as [|c s]; [now exists EmptyString|].
    destruct (IH s) as [q Hq]. exists (String c q). simpl. now rewrite <- Hq.
Qed.

Lemma drop_append (q p : string) : Js.drop (String.length q) (q ++ p) = p.
Proof. induction q as [|c q IH]; simpl; [reflexivity | exact IH]. Qed.

Lemma endsWith_spec (s p : string) :
  Js.endsWith s p = true <-> ends_in s p.
Proof.
  unfold Js.endsWith, ends_in. split.
  - destruct (Nat.leb_spec (String.length p) (String.length s)) as [Hle|Hlt];
      [|discriminate].
    intros H. apply String.eqb_eq in H.
    destruct (drop_split (String.length s - String.length p) s) as [q Hq].
    exists q. now rewrite H in Hq.
  - intros [q ->]. rewrite length_append.
    destruct (Nat.leb_spec (String.length p) (String.length q + String.length p));
      [|lia].
    replace (String.length q + String.length p - String.length p)
      with (String.length q) by lia.
    rewrite drop_append. apply String.eqb_refl.
Qed.

Lemma endsWith_false (s p : string) :
  Js.endsWith s p = false <-> ~ ends_in s p.
Proof.
  split.
  - intros H Hin. apply endsWith_spec in Hin. congruence.
  - intros H. destruct (Js.endsWith s p) eqn:E; [|reflexivity].
    apply endsWith_spec in E. contradiction.
Qed.

Lemma match_here_lit (p s : string) :
  Js.match_here (Js.lit p) s = if Js.startsWith s p then Some [] else None.
Proof.
  revert s. induction p as [|c p IH]; intros s; simpl; [reflexivity|].
  destruct s as [|d s]; [reflexivity|].
  destruct (Ascii.eqb c d); [apply IH | reflexivity].
Qed.

Lemma exec_unfold (re : Js.Regex) (s : string) :
  Js.exec re s =
    match Js.match_here re s with
    | Some caps => Some caps
    | None => match s with
              | EmptyString => None
              | String _ s' => Js.exec re s'
              end
    end.
Proof. destruct s; reflexivity. Qed.

(** A literal pattern matches exactly the texts that contain the literal. *)
Lemma exec_lit_contains (p t : string) :
  Js.exec (Js.lit p) t = Some [] <-> contains t p.
Proof.
  unfold contains. split.
  - induction t as [|c t IH]; rewrite exec_unfold, match_here_lit.
    + destruct (Js.startsWith EmptyString p) eqn:E; [|discriminate].
      intros _. apply startsWith_spec in E. destruct E as [r Hr].
      now exists EmptyString, r.
    + destruct (Js.startsWith (String c t) p) eqn:E.
      * intros _. apply startsWith_spec in E. destruct E as [r Hr].
        now exists EmptyString, r.
      * intros H. destruct (IH H) as [a [b Hab]].
        exists (String c a), b. simpl. now rewrite Hab.
  - intros [a [b ->]]. induction a as [|c a IH]; simpl (_ ++ _);
      rewrite exec_unfold, match_here_lit.
    + replace (Js.startsWith (p ++ b) p) with true; [reflexivity|].
      symmetry. apply startsWith_spec. now exists b.
    + destruct (Js.startsWith (String c (a ++ p ++ b)) p); [reflexivity | exact IH].
Qed.

Lemma exec_lit_cases (p t : string) :
  Js.exec (Js.lit p) t = Some [] \/ Js.exec (Js.lit p) t = None.
Proof.
  induction t as [|c t IH]; rewrite exec_unfold, match_here_lit.
  - destruct (Js.startsWith EmptyString p); auto.
  - destruct (Js.startsWith (String c t) p); auto.
Qed.

Lemma exec_lit_none (p t : string) :
  Js.exec (Js.lit p) t = None <-> ~ contains t p.
Proof.
  split.
  - intros H Hc. apply exec_lit_contains in Hc. congruence.
  - intros H. destruct (exec_lit_cases p t) as [E|E]; [|exact E].
    apply exec_lit_contains in E. contradiction.
Qed.

(* ================================================================== *)
(** * MIME inference (C7) *)
(* ================================================================== *)

Lemma png_not_webp (path : string) : ends_in path ".png" -> ~ ends_in path ".webp".
Proof.
  intros H1 H2. apply endsWith_spec in H1. apply endsWith_spec in H2.
  unfold Js.endsWith in *.
  destruct (Nat.leb_spec (String.length ".webp") (String.length path)); [|discriminate].
  destruct (Nat.leb_spec (String.length ".png") (String.length path)); [|discriminate].
  apply String.eqb_eq in H1. apply String.eqb_eq in H2.
  simpl String.length in *.
  assert (Hd : forall n s, Js.drop 1 (Js.drop n s) = Js.drop (S n) s).
  { clear. induction n as [|n IH]; intros s.
    - reflexivity.
    - destruct s as [|c s]; [reflexivity|]. simpl Js.drop at 2 3. apply IH. }
  replace (String.length path - 4) with (S (String.length path - 5)) in H1 by lia.
  rewrite <- Hd, H2 in H1. discriminate.
Qed.

(** C7, counterexample: in the webhook variant a path that ends in
    [.webp] is given the type [image/jpeg], not [image/webp]. *)
Lemma webhook_webp_is_jpeg :
  ends_in "photos/file_7.webp" ".webp"
  /\ WebhookJs.mimeType_of "photos/file_7.webp" = "image/jpeg"
  /\ WebhookJs.mimeType_of "photos/file_7.webp" <> "image/webp".
Proof.
  split; [now exists "photos/file_7" | split; [reflexivity | discriminate]].
Qed.

(** C7, amended: in [bot.js] a path ending in [.png] yields [image/png],
    one ending in [.webp] yields [image/webp] and every other path
    [image/jpeg]; in the webhook variant a path ending in [.png] yields
    [image/png] and every other path, [.webp] included, [image/jpeg]. *)
Theorem mime_inference (path : string) :
  (ends_in path ".png" ->
     BotJs.mimeType_of path = "image/png"
     /\ WebhookJs.mimeType_of path = "image/png")
  /\ (ends_in path ".webp" ->
        BotJs.mimeType_of path = "image/webp"
        /\ WebhookJs.mimeType_of path = "image/jpeg")
  /\ (~ ends_in path ".png" -> ~ ends_in path ".webp" ->
        BotJs.mimeType_of path = "image/jpeg")
  /\ (~ ends_in path ".png" -> WebhookJs.mimeType_of path = "image/jpeg").
Proof.
  unfold BotJs.mimeType_of, WebhookJs.mimeType_of.
  split; [|split; [|split]].
  - intros H. apply endsWith_spec in H. rewrite H. split; reflexivity.
  - intros H.
    assert (Hp : Js.endsWith path ".png" = false).
    { apply endsWith_false. intros Hp. exact (png_not_webp _ Hp H). }
    apply endsWith_spec in H. rewrite Hp, H. split; reflexivity.
  - intros H H0. apply endsWith_false in H, H0. now rewrite H, H0.
  - intros H. apply endsWith_false in H. now rewrite H.
Qed.

Lemma mime_inference_witness :
  BotJs.mimeType_of "photos/file_7.webp" = "image/webp"
  /\ WebhookJs.mimeType_of "photos/file_7.webp" = "image/jpeg".
Proof.
  apply (proj1 (proj2 (mime_inference "photos/file_7.webp"))).
  now exists "photos/file_7".
Defined.

(* ================================================================== *)
(** * Rendering of the search results (C5) *)
(* ================================================================== *)

(** C5: in both variants the rendered block is that of the first three
    results at most, each as title, newline, link, with a blank line
    between consecutive ones, in the order of the search response. *)
Theorem render_results_first_three (results : list Item) :
  BotJs.render_results results = first_three_rendered results
  /\ WebhookJs.render_results results = first_three_rendered results.
Proof.
  unfold BotJs.render_results, WebhookJs.render_results, Js.slice.
  destruct results as [|r1 [|r2 [|r3 rest]]]; simpl; split; reflexivity.
Qed.


(* ================================================================== *)
(** * Running handler code *)
(* ================================================================== *)

Ltac unfold_prims :=
  unfold model_generateContent, axios_get_customsearch, bot_getFile,
    axios_get_arraybuffer, bot_sendMessage, console_error, Chat_save,
    User_findOne, User_save, User_updateOne, defined, value_or_throw,
    get_users, put_users, push_chat, record, try_catch, bind, ret, throw.

Ltac run :=
  unfold_prims; simpl in *;
  repeat match goal with
         | H : ?x = _ |- context [?x] => rewrite H; simpl
         end;
  unfold extend; simpl; rewrite <- ?app_assoc, ?app_nil_r; simpl; try reflexivity.

Lemma sent_app (a b : list Event) : sent (a ++ b) = (sent a ++ sent b)%list.
Proof.
  induction a as [|e a IH]; simpl; [reflexivity|].
  destruct e; simpl; now rewrite ?IH.
Qed.

(** ** Lookups in the [User] collection *)

Lemma find_user_none (chatId : Z) (us : list User.t) :
  find_user chatId us = None <-> ~ registered chatId us.
Proof.
  unfold registered. induction us as [|u us IH]; simpl.
  - split; [intros _ [u [[] _]] | reflexivity].
  - destruct (Z.eqb_spec (User.chat_id u) chatId) as [E|E].
    + split; [discriminate | intros H; elim H; exists u; auto].
    + rewrite IH. split; intros H [v [Hin Hv]].
      * destruct Hin as [->|Hin]; [contradiction | apply H; eauto].
      * apply H. eauto.
Qed.

Lemma find_user_some (chatId : Z) (us : list User.t) :
  registered chatId us -> exists u, find_user chatId us = Some u.
Proof.
  intros H. destruct (find_user chatId us) as [u|] eqn:E; [eauto|].
  apply find_user_none in E. contradiction.
Qed.

(* ================================================================== *)
(** * The dispatch (C10, C1) *)
(* ================================================================== *)

Lemma match_here_lit_prefix (p : string) (re : Js.Regex) (s : string) caps :
  Js.match_here (Js.lit p ++ re)%list s = Some caps -> Js.startsWith s p = true.
Proof.
  revert s. induction p as [|c p IH]; intros s; simpl; [reflexivity|].
  destruct s as [|d s]; [discriminate|].
  destruct (Ascii.eqb c d); [apply IH | discriminate].
Qed.

(** A pattern that begins with a literal matches only texts that
    contain the literal. *)
Lemma exec_lit_prefix (p : string) (re : Js.Regex) (t : string) caps :
  Js.exec (Js.lit p ++ re)%list t = Some caps -> contains t p.
Proof.
  unfold contains. induction t as [|c t IH]; rewrite exec_unfold.
  - destruct (Js.match_here _ _) eqn:E; [|discriminate].
    intros _. apply match_here_lit_prefix, startsWith_spec in E.
    destruct E as [r Hr]. now exists EmptyString, r.
  - destruct (Js.match_here _ _) eqn:E.
    + intros _. apply match_here_lit_prefix, startsWith_spec in E.
      destruct E as [r Hr]. now exists EmptyString, r.
    + intros H. destruct (IH H) as [a [b Hab]].
      exists (String c a), b. simpl. now rewrite Hab.
Qed.

Lemma websearch_needs_trigger (t : string) :
  ~ contains t "/websearch" -> Js.exec BotJs.re_websearch t = None.
Proof.
  intros H. destruct (Js.exec BotJs.re_websearch t) as [caps|] eqn:E; [|reflexivity].
  apply exec_lit_prefix in E. destruct E as [a [b Hab]].
  elim H. exists a, (" " ++ b). now rewrite Hab.
Qed.

(** The callbacks of [bot.js] for a text update. *)
Lemma BotJs_dispatch_text env msg c t :
  Tg.text msg = Some (String c t) ->
  dispatch (BotJs.bot env) msg =
    (HChat, BotJs.onMessage env msg)
    :: match Js.exec BotJs.re_start (String c t) with
       | Some caps => [(HRegistration, BotJs.onStart env msg caps)]
       | None => []
       end
    ++ match Js.exec BotJs.re_help (String c t) with
       | Some caps => [(HHelp, BotJs.onHelp msg caps)]
       | None => []
       end
    ++ match Js.exec BotJs.re_websearch (String c t) with
       | Some caps => [(HSearch, BotJs.onWebsearch env msg caps)]
       | None => []
       end.
Proof.
  intros H. unfold dispatch, emitted, matched, message_type. rewrite H. simpl.
  now rewrite app_nil_r.
Qed.

(** The callbacks of the webhook variant for a text update. *)
Lemma WebhookJs_dispatch_text env msg c t :
  Tg.text msg = Some (String c t) ->
  dispatch (WebhookJs.bot env) msg =
    (HChat, WebhookJs.onMessage env msg)
    :: match Js.exec WebhookJs.re_start (String c t) with
       | Some caps => [(HRegistration, WebhookJs.onStart env msg caps)]
       | None => []
       end
    ++ match Js.exec WebhookJs.re_websearch (String c t) with
       | Some caps => [(HSearch, WebhookJs.onWebsearch env msg caps)]
       | None => []
       end.
Proof.
  intros H. unfold dispatch, emitted, matched, message_type. rewrite H. simpl.
  now rewrite app_nil_r.
Qed.

Lemma contains_nonempty (t p : string) :
  contains t p -> p <> EmptyString -> exists c t', t = String c t'.
Proof.
  intros [a [b ->]] Hp. destruct a as [|x a]; simpl; [|eauto].
  destruct p as [|y p]; [congruence | simpl; eauto].
Qed.

(** C10: the pattern of the Registration Handler is unanchored: in both
    variants the handler's callback is among those invoked for a text
    update exactly when the text contains [/start] somewhere. *)
Theorem start_trigger_is_unanchored env msg t :
  Tg.text msg = Some t ->
  (contains t "/start" <->
     In (HRegistration, BotJs.onStart env msg []) (dispatch (BotJs.bot env) msg))
  /\ (contains t "/start" <->
        In (HRegistration, WebhookJs.onStart env msg []) (dispatch (WebhookJs.bot env) msg))
  /\ (contains t "/start" <-> In HRegistration (handlers_invoked (BotJs.bot env) msg))
  /\ (contains t "/start" <-> In HRegistration (handlers_invoked (WebhookJs.bot env) msg)).
Proof.
  intros Ht.
  destruct t as [|c t].
  - assert (Hno : ~ contains EmptyString "/start").
    { intros H. apply contains_nonempty in H; [|discriminate].
      destruct H as [? [? ?]]; discriminate. }
    unfold handlers_invoked, dispatch, emitted, matched, message_type.
    rewrite Ht.
    destruct (Tg.contact msg), (Tg.photo msg); simpl;
      repeat split; intros H; try (now elim Hno);
      repeat (destruct H as [H|H]; try discriminate); try contradiction.
  - unfold handlers_invoked.
    rewrite (BotJs_dispatch_text env msg c t Ht), (WebhookJs_dispatch_text env msg c t Ht).
    unfold BotJs.re_start, WebhookJs.re_start.
    destruct (exec_lit_cases "/start" (String c t)) as [E|E]; rewrite E;
      destruct (Js.exec BotJs.re_help (String c t)),
               (Js.exec BotJs.re_websearch (String c t)),
               (Js.exec WebhookJs.re_websearch (String c t)).
    1-8: assert (Hc : contains (String c t) "/start") by (now apply exec_lit_contains);
      repeat split; intros _; try exact Hc; simpl; auto.
    all: assert (Hc : ~ contains (String c t) "/start") by (now apply exec_lit_none);
      repeat split; intros H; try (now elim Hc); exfalso; simpl in H;
      repeat (destruct H as [H|H]; try discriminate); contradiction.
Qed.

Lemma start_trigger_witness :
  In HRegistration
     (handlers_invoked (BotJs.bot Scenario.ai_down) (Scenario.text_update "please /start now"))
  /\ In HRegistration
       (handlers_invoked (WebhookJs.bot Scenario.ai_down) (Scenario.text_update "please /start now")).
Proof.
  assert (H : contains "please /start now" "/start") by (now exists "please ", " now").
  destruct (start_trigger_is_unanchored Scenario.ai_down
              (Scenario.text_update "please /start now") "please /start now" eq_refl)
    as [_ [_ [H1 H2]]].
  split; [apply H1 | apply H2]; exact H.
Defined.

(** The [try]/[catch] of the message callback of [bot.js] ends normally
    with one more message sent, and leaves the [User] collection alone. *)
Lemma BotJs_chat_replies_once env chatId text w :
  exists r w',
    BotJs.chat env chatId text w = (Returned tt, w')
    /\ users w' = users w
    /\ sent (trace w') = (sent (trace w) ++ [(chatId, r)])%list.
Proof.
  unfold BotJs.chat. unfold_prims. simpl.
  destruct (generateContent env _ _) as [res|]; simpl.
  - destruct (response_text res) as [out|]; simpl.
    + destruct (saveChat_fails env _); simpl; do 2 eexists;
        (split; [reflexivity | split; [reflexivity|]]); simpl;
        rewrite !sent_app; simpl; rewrite ?app_nil_r, <- ?app_assoc; reflexivity.
    + do 2 eexists; (split; [reflexivity | split; [reflexivity|]]); simpl;
        rewrite !sent_app; simpl; rewrite ?app_nil_r, <- ?app_assoc; reflexivity.
  - do 2 eexists; (split; [reflexivity | split; [reflexivity|]]); simpl;
        rewrite !sent_app; simpl; rewrite ?app_nil_r, <- ?app_assoc; reflexivity.
Qed.

Lemma WebhookJs_onMessage_replies_once env msg w :
  exists r w',
    WebhookJs.onMessage env msg w = (Returned tt, w')
    /\ users w' = users w
    /\ sent (trace w') = (sent (trace w) ++ [(Tg.id (Tg.chat msg), r)])%list.
Proof.
  unfold WebhookJs.onMessage. unfold_prims. simpl.
  destruct (generateContent env _ _) as [res|]; simpl.
  - destruct (saveChat_fails env _); simpl; do 2 eexists;
        (split; [reflexivity | split; [reflexivity|]]); simpl;
        rewrite !sent_app; simpl; rewrite ?app_nil_r, <- ?app_assoc; reflexivity.
  - do 2 eexists; (split; [reflexivity | split; [reflexivity|]]); simpl;
        rewrite !sent_app; simpl; rewrite ?app_nil_r, <- ?app_assoc; reflexivity.
Qed.

Lemma startsWith_contains (t p : string) :
  Js.startsWith t p = true -> contains t p.
Proof.
  intros H. apply startsWith_spec in H. destruct H as [r ->].
  now exists EmptyString, r.
Qed.

(* ================================================================== *)
(** * The Chat Handler and persistence (C3, C2) *)
(* ================================================================== *)

Lemma BotJs_onMessage_is_chat env msg t :
  Tg.text msg = Some t -> t <> EmptyString ->
  Js.startsWith t "/start" = false -> Js.startsWith t "/websearch" = false ->
  BotJs.onMessage env msg = BotJs.chat env (Tg.id (Tg.chat msg)) (Some t).
Proof.
  intros Ht Hne H1 H2. unfold BotJs.onMessage, BotJs.text_startsWith.
  rewrite Ht, H1, H2. destruct t; [congruence | reflexivity].
Qed.

(** C3, counterexample: an empty completion is neither dropped nor
    answered with the apology: [bot.js] stores and sends the empty text,
    the webhook variant stores and sends its fallback sentence. *)
Lemma empty_completion_is_persisted :
  BotJs.onMessage (Scenario.all_up EmptyString) (Scenario.text_update "hello")
                  Scenario.empty_world
  = (Returned tt,
     {| users := [];
        chats := [Chat.mk 42 (Some "hello") EmptyString 1700000000];
        trace := [EGenerate "gemini-pro" (ReqContents "user" [PText (Some "hello")]);
                  ESaveChat (Chat.mk 42 (Some "hello") EmptyString 1700000000);
                  ESend 42 EmptyString None] |})
  /\ WebhookJs.onMessage (Scenario.all_up EmptyString) (Scenario.text_update "hello")
                         Scenario.empty_world
     = (Returned tt,
        {| users := [];
           chats := [Chat.mk 42 (Some "hello") "Sorry, I couldn't understand that." 1700000000];
           trace := [EGenerate "gemini-1.5-pro" (ReqContents "user" [PText (Some "hello")]);
                     ESaveChat (Chat.mk 42 (Some "hello")
                                        "Sorry, I couldn't understand that." 1700000000);
                     ESend 42 "Sorry, I couldn't understand that." None] |}).
Proof. split; reflexivity. Qed.

(** C3, amended: on a non-empty text (in [bot.js]: one that does not
    start with [/start] or [/websearch]), if the model call returns and
    the store write succeeds, exactly one turn is appended, with the
    original text as [user_input] and the reply as [bot_response], and
    that reply is sent; the reply is the model's output, empty or not, in
    [bot.js], and in the webhook variant the model's output or, when that
    is missing or empty, the fallback sentence.  If the model call throws,
    no turn is appended and the fixed apology is sent. *)
Theorem chat_handler_turns env msg t w :
  Tg.text msg = Some t ->
  t <> EmptyString ->
  let chatId := Tg.id (Tg.chat msg) in
  let req := ReqContents "user" [PText (Some t)] in
  (Js.startsWith t "/start" = false -> Js.startsWith t "/websearch" = false ->
     (forall r out,
         generateContent env "gemini-pro" req = Some r ->
         response_text r = Some out ->
         saveChat_fails env (new_Chat env chatId (Some t) out) = false ->
         BotJs.onMessage env msg w
         = (Returned tt,
            extend w [new_Chat env chatId (Some t) out]
                   [EGenerate "gemini-pro" req;
                    ESaveChat (new_Chat env chatId (Some t) out);
                    ESend chatId out None]))
     /\ (generateContent env "gemini-pro" req = None
         \/ (exists r, generateContent env "gemini-pro" req = Some r
                       /\ response_text r = None) ->
         BotJs.onMessage env msg w
         = (Returned tt,
            extend w []
                   [EGenerate "gemini-pro" req;
                    ELog "Error generating content:";
                    ESend chatId BotJs.chat_apology None])))
  /\ (forall r,
         generateContent env "gemini-1.5-pro" req = Some r ->
         let out := Js.or_else (candidates_text r) WebhookJs.chat_fallback in
         saveChat_fails env (new_Chat env chatId (Some t) out) = false ->
         WebhookJs.onMessage env msg w
         = (Returned tt,
            extend w [new_Chat env chatId (Some t) out]
                   [EGenerate "gemini-1.5-pro" req;
                    ESaveChat (new_Chat env chatId (Some t) out);
                    ESend chatId out None]))
  /\ (generateContent env "gemini-1.5-pro" req = None ->
      WebhookJs.onMessage env msg w
      = (Returned tt,
         extend w []
                [EGenerate "gemini-1.5-pro" req;
                 ELog "Error generating content:";
                 ESend chatId WebhookJs.chat_apology None])).
Proof.
  intros Ht Hne chatId req. subst chatId req. split; [|split].
  - intros H1 H2. rewrite (BotJs_onMessage_is_chat env msg t Ht Hne H1 H2).
    unfold BotJs.chat. split.
    + intros r out Hg Hr Hs. run.
    + intros [Hg | [r [Hg Hr]]]; run.
  - intros r Hg out Hs. subst out. unfold WebhookJs.onMessage. rewrite Ht. run.
  - intros Hg. unfold WebhookJs.onMessage. rewrite Ht. run.
Qed.

Lemma chat_handler_turns_witness :
  BotJs.onMessage (Scenario.all_up "Hi!") (Scenario.text_update "hello") Scenario.empty_world
  = (Returned tt,
     extend Scenario.empty_world
            [new_Chat (Scenario.all_up "Hi!") 42 (Some "hello") "Hi!"]
            [EGenerate "gemini-pro" (ReqContents "user" [PText (Some "hello")]);
             ESaveChat (new_Chat (Scenario.all_up "Hi!") 42 (Some "hello") "Hi!");
             ESend 42 "Hi!" None]).
Proof.
  refine (proj1 (proj1 (chat_handler_turns (Scenario.all_up "Hi!")
                          (Scenario.text_update "hello") "hello" Scenario.empty_world
                          eq_refl _) eq_refl eq_refl)
                (Scenario.completion "Hi!") "Hi!" eq_refl eq_refl eq_refl).
  discriminate.
Defined.

(** C2, counterexample: the model answered ["Hi!"], the write to the
    [Chat] collection failed, and the user got the apology instead of the
    answer, in both variants. *)
Lemma failed_write_blocks_the_reply :
  BotJs.onMessage (Scenario.chats_down "Hi!") (Scenario.text_update "hello")
                  Scenario.empty_world
  = (Returned tt,
     {| users := [];
        chats := [];
        trace := [EGenerate "gemini-pro" (ReqContents "user" [PText (Some "hello")]);
                  ESaveChat (Chat.mk 42 (Some "hello") "Hi!" 1700000000);
                  ELog "Error generating content:";
                  ESend 42 "Sorry, I couldn't process your request. Please try again later."
                        None] |})
  /\ sent (trace (snd (WebhookJs.onMessage (Scenario.chats_down "Hi!")
                         (Scenario.text_update "hello") Scenario.empty_world)))
     = [(42%Z, "Sorry, I couldn't process your request.")].
Proof. split; reflexivity. Qed.

(** C2, amended: when the write of the turn fails after a response was
    generated, the response is not sent: the [catch] block of the handler
    logs the error and sends the handler's fixed error message, and no
    turn is stored.  This holds for the chat, search and image callbacks
    of both variants. *)
Theorem failed_write_sends_fixed_error env msg w :
  let chatId := Tg.id (Tg.chat msg) in
  (* chat *)
  (forall t r out,
      Tg.text msg = Some t -> t <> EmptyString ->
      Js.startsWith t "/start" = false -> Js.startsWith t "/websearch" = false ->
      let req := ReqContents "user" [PText (Some t)] in
      generateContent env "gemini-pro" req = Some r ->
      response_text r = Some out ->
      saveChat_fails env (new_Chat env chatId (Some t) out) = true ->
      BotJs.onMessage env msg w
      = (Returned tt,
         extend w [] [EGenerate "gemini-pro" req;
                      ESaveChat (new_Chat env chatId (Some t) out);
                      ELog "Error generating content:";
                      ESend chatId BotJs.chat_apology None]))
  /\ (forall r,
         let req := ReqContents "user" [PText (Tg.text msg)] in
         generateContent env "gemini-1.5-pro" req = Some r ->
         let out := Js.or_else (candidates_text r) WebhookJs.chat_fallback in
         saveChat_fails env (new_Chat env chatId (Tg.text msg) out) = true ->
         WebhookJs.onMessage env msg w
         = (Returned tt,
            extend w [] [EGenerate "gemini-1.5-pro" req;
                         ESaveChat (new_Chat env chatId (Tg.text msg) out);
                         ELog "Error generating content:";
                         ESend chatId WebhookJs.chat_apology None]))
  (* search *)
  /\ (forall match_ d its r summary,
         let query := nth 0 match_ EmptyString in
         customsearch env query = Some d ->
         items d = Some its ->
         let req := ReqPrompt ("Summarize the following search results:" ++ Js.nl ++ Js.nl
                                 ++ BotJs.render_results its) in
         generateContent env "gemini-pro" req = Some r ->
         response_text r = Some summary ->
         saveChat_fails env (new_Chat env chatId (Some query) summary) = true ->
         BotJs.onWebsearch env msg match_ w
         = (Returned tt,
            extend w [] [ESearch query (GOOGLE_API_KEY env) (SEARCH_ENGINE_ID env);
                         EGenerate "gemini-pro" req;
                         ESaveChat (new_Chat env chatId (Some query) summary);
                         ELog "Error fetching search results:";
                         ESend chatId BotJs.search_error None]))
  /\ (forall match_ d its r,
         let query := nth 0 match_ EmptyString in
         customsearch env query = Some d ->
         items d = Some its ->
         let req := ReqContents "user"
                      [PText (Some ("Summarize this: " ++ WebhookJs.render_results its))] in
         generateContent env "gemini-1.5-pro" req = Some r ->
         let summary := Js.or_else (candidates_text r) WebhookJs.summary_fallback in
         saveChat_fails env (new_Chat env chatId (Some query) summary) = true ->
         WebhookJs.onWebsearch env msg match_ w
         = (Returned tt,
            extend w [] [ESearch query (GOOGLE_API_KEY env) (SEARCH_ENGINE_ID env);
                         EGenerate "gemini-1.5-pro" req;
                         ESaveChat (new_Chat env chatId (Some query) summary);
                         ELog "Error fetching search results:";
                         ESend chatId WebhookJs.search_error None]))
  (* image *)
  /\ (forall sizes largest path data r description,
         Tg.photo msg = Some sizes ->
         Js.last_elem sizes = Some largest ->
         getFile env (Tg.file_id largest) = Some {| Tg.file_path := Some path |} ->
         let url := "https://api.telegram.org/file/bot" ++ TELEGRAM_BOT_TOKEN env
                      ++ "/" ++ path in
         download env url = Some data ->
         let req := ReqArray [PInlineData (Js.base64 data) (BotJs.mimeType_of path);
                              PString "Describe this image in brief."] in
         generateContent env "gemini-1.5-pro" req = Some r ->
         response_text r = Some description ->
         saveChat_fails env (new_Chat env chatId (Some "image") description) = true ->
         BotJs.onPhoto env msg w
         = (Returned tt,
            extend w [] [EGetFile (Tg.file_id largest);
                         EDownload url;
                         EGenerate "gemini-1.5-pro" req;
                         ESaveChat (new_Chat env chatId (Some "image") description);
                         ELog "Error analyzing image:";
                         ESend chatId BotJs.image_error None]))
  /\ (forall sizes largest path data r,
         Tg.photo msg = Some sizes ->
         Js.last_elem sizes = Some largest ->
         getFile env (Tg.file_id largest) = Some {| Tg.file_path := Some path |} ->
         let url := "https://api.telegram.org/file/bot" ++ TELEGRAM_BOT_TOKEN env
                      ++ "/" ++ path in
         download env url = Some data ->
         let req := ReqContents "user"
                      [PInlineData (Js.base64 data) (WebhookJs.mimeType_of path);
                       PText (Some "Describe this image briefly.")] in
         generateContent env "gemini-1.5-pro" req = Some r ->
         let description := Js.or_else (candidates_text r) WebhookJs.description_fallback in
         saveChat_fails env (new_Chat env chatId (Some "image") description) = true ->
         WebhookJs.onPhoto env msg w
         = (Returned tt,
            extend w [] [EGetFile (Tg.file_id largest);
                         EDownload url;
                         EGenerate "gemini-1.5-pro" req;
                         ESaveChat (new_Chat env chatId (Some "image") description);
                         ELog "Error analyzing image:";
                         ESend chatId WebhookJs.image_error None])).
Proof.
  intros chatId. subst chatId. repeat split.
  - intros t r out Ht Hne H1 H2 req Hg Hr Hs. subst req.
    rewrite (BotJs_onMessage_is_chat env msg t Ht Hne H1 H2). unfold BotJs.chat. run.
  - intros r req Hg out Hs. subst req out. unfold WebhookJs.onMessage. run.
  - intros match_ d its r summary query Hc Hi req Hg Hr Hs. subst query req.
    unfold BotJs.onWebsearch. run.
  - intros match_ d its r query Hc Hi req Hg summary Hs. subst query req summary.
    unfold WebhookJs.onWebsearch. run.
  - intros sizes largest path data r description Hp Hl Hf url Hd req Hg Hr Hs.
    subst url req. unfold BotJs.onPhoto, BotJs.analyze. run.
  - intros sizes largest path data r Hp Hl Hf url Hd req Hg description Hs.
    subst url req description. unfold WebhookJs.onPhoto, WebhookJs.analyze. run.
Qed.

Lemma failed_write_witness :
  BotJs.onMessage (Scenario.chats_down "Hi!") (Scenario.text_update "hello")
                  Scenario.empty_world
  = (Returned tt,
     extend Scenario.empty_world []
            [EGenerate "gemini-pro" (ReqContents "user" [PText (Some "hello")]);
             ESaveChat (new_Chat (Scenario.chats_down "Hi!") 42 (Some "hello") "Hi!");
             ELog "Error generating content:";
             ESend 42 BotJs.chat_apology None]).
Proof.
  refine (proj1 (failed_write_sends_fixed_error (Scenario.chats_down "Hi!")
                   (Scenario.text_update "hello") Scenario.empty_world)
                "hello" (Scenario.completion "Hi!") "Hi!"
                eq_refl _ eq_refl eq_refl eq_refl eq_refl eq_refl).
  discriminate.
Defined.

(* ================================================================== *)
(** * The Search Handler (C4) *)
(* ================================================================== *)

(** C4, counterexample: an empty summary does not abort the handler:
    [bot.js] stores the turn with the empty summary and sends the results
    with an empty summary block; the webhook variant stores and sends
    its fallback sentence.  Neither sends the error reply. *)
Lemma empty_summary_is_not_an_error :
  BotJs.onWebsearch (Scenario.all_up EmptyString)
                    (Scenario.text_update "/websearch rust ownership")
                    ["rust ownership"] Scenario.empty_world
  = (Returned tt,
     {| users := [];
        chats := [Chat.mk 42 (Some "rust ownership") EmptyString 1700000000];
        trace :=
          [ESearch "rust ownership" "KEY" "CX";
           EGenerate "gemini-pro"
             (ReqPrompt ("Summarize the following search results:" ++ Js.nl ++ Js.nl
                           ++ BotJs.render_results Scenario.three_items));
           ESaveChat (Chat.mk 42 (Some "rust ownership") EmptyString 1700000000);
           ESend 42 (BotJs.search_reply (BotJs.render_results Scenario.three_items)
                                        EmptyString) None] |})
  /\ chats (snd (WebhookJs.onWebsearch (Scenario.all_up EmptyString)
                   (Scenario.text_update "/websearch rust ownership")
                   ["rust ownership"] Scenario.empty_world))
     = [Chat.mk 42 (Some "rust ownership") "No summary available." 1700000000]
  /\ sent (trace (snd (WebhookJs.onWebsearch (Scenario.all_up EmptyString)
                         (Scenario.text_update "/websearch rust ownership")
                         ["rust ownership"] Scenario.empty_world)))
     = [(42%Z, WebhookJs.search_reply (WebhookJs.render_results Scenario.three_items)
                                      "No summary available.")].
Proof. repeat split; reflexivity. Qed.

(** C4, amended: a failure of the search request (the call throws, or
    the response has no [items], as when nothing was found) or of the
    summarisation call (it throws) aborts the remaining steps, sends the
    fixed [Error fetching search results.] reply and appends no turn.  A
    summary that comes back, empty or not, is not a failure: with a
    working store the handler appends one turn and sends the results and
    the summary, the webhook variant putting [No summary available.] in
    the place of a missing or empty summary. *)
Theorem search_handler_failures env msg match_ w :
  let chatId := Tg.id (Tg.chat msg) in
  let query := nth 0 match_ EmptyString in
  let searched := ESearch query (GOOGLE_API_KEY env) (SEARCH_ENGINE_ID env) in
  let prompt its := ReqPrompt ("Summarize the following search results:" ++ Js.nl ++ Js.nl
                                 ++ BotJs.render_results its) in
  let contents its := ReqContents "user"
                        [PText (Some ("Summarize this: " ++ WebhookJs.render_results its))] in
  (* the search step fails *)
  (customsearch env query = None
   \/ (exists d, customsearch env query = Some d /\ items d = None) ->
   BotJs.onWebsearch env msg match_ w
   = (Returned tt,
      extend w [] [searched; ELog "Error fetching search results:";
                   ESend chatId BotJs.search_error None])
   /\ WebhookJs.onWebsearch env msg match_ w
      = (Returned tt,
         extend w [] [searched; ELog "Error fetching search results:";
                      ESend chatId WebhookJs.search_error None]))
  (* the summarisation step fails *)
  /\ (forall d its,
         customsearch env query = Some d -> items d = Some its ->
         (generateContent env "gemini-pro" (prompt its) = None
          \/ (exists r, generateContent env "gemini-pro" (prompt its) = Some r
                        /\ response_text r = None) ->
          BotJs.onWebsearch env msg match_ w
          = (Returned tt,
             extend w [] [searched; EGenerate "gemini-pro" (prompt its);
                          ELog "Error fetching search results:";
                          ESend chatId BotJs.search_error None]))
         /\ (generateContent env "gemini-1.5-pro" (contents its) = None ->
             WebhookJs.onWebsearch env msg match_ w
             = (Returned tt,
                extend w [] [searched; EGenerate "gemini-1.5-pro" (contents its);
                             ELog "Error fetching search results:";
                             ESend chatId WebhookJs.search_error None])))
  (* a summary comes back *)
  /\ (forall d its r,
         customsearch env query = Some d -> items d = Some its ->
         (forall summary,
             generateContent env "gemini-pro" (prompt its) = Some r ->
             response_text r = Some summary ->
             saveChat_fails env (new_Chat env chatId (Some query) summary) = false ->
             BotJs.onWebsearch env msg match_ w
             = (Returned tt,
                extend w [new_Chat env chatId (Some query) summary]
                       [searched; EGenerate "gemini-pro" (prompt its);
                        ESaveChat (new_Chat env chatId (Some query) summary);
                        ESend chatId
                              (BotJs.search_reply (BotJs.render_results its) summary)
                              None]))
         /\ (generateContent env "gemini-1.5-pro" (contents its) = Some r ->
             let summary := Js.or_else (candidates_text r) WebhookJs.summary_fallback in
             saveChat_fails env (new_Chat env chatId (Some query) summary) = false ->
             WebhookJs.onWebsearch env msg match_ w
             = (Returned tt,
                extend w [new_Chat env chatId (Some query) summary]
                       [searched; EGenerate "gemini-1.5-pro" (contents its);
                        ESaveChat (new_Chat env chatId (Some query) summary);
                        ESend chatId
                              (WebhookJs.search_reply (WebhookJs.render_results its) summary)
                              None]))).
Proof.
  intros chatId query searched prompt contents.
  subst chatId query searched prompt contents.
  unfold BotJs.onWebsearch, WebhookJs.onWebsearch.
  split; [|split].
  - intros [Hc | [d [Hc Hi]]]; split; run.
  - intros d its Hc Hi. split.
    + intros [Hg | [r [Hg Hr]]]; run.
    + intros Hg. run.
  - intros d its r Hc Hi. split.
    + intros summary Hg Hr Hs. run.
    + intros Hg Hs. run.
Qed.

Lemma search_handler_failures_witness :
  BotJs.onWebsearch Scenario.ai_down (Scenario.text_update "/websearch rust ownership")
                    ["rust ownership"] Scenario.empty_world
  = (Returned tt,
     extend Scenario.empty_world []
            [ESearch "rust ownership" "KEY" "CX";
             EGenerate "gemini-pro"
               (ReqPrompt ("Summarize the following search results:" ++ Js.nl ++ Js.nl
                             ++ BotJs.render_results Scenario.three_items));
             ELog "Error fetching search results:";
             ESend 42 BotJs.search_error None]).
Proof.
  refine (proj1 (proj1 (proj2 (search_handler_failures Scenario.ai_down
                                 (Scenario.text_update "/websearch rust ownership")
                                 ["rust ownership"] Scenario.empty_world))
                       {| items := Some Scenario.three_items |} Scenario.three_items
                       eq_refl eq_refl)
                (or_introl eq_refl)).
Defined.

(* ================================================================== *)
(** * The Image Handler (C6) *)
(* ================================================================== *)

Lemma last_elem_app {A : Type} (l : list A) (x : A) :
  Js.last_elem (l ++ [x]) = Some x.
Proof.
  unfold Js.last_elem. destruct (l ++ [x])%list eqn:E.
  - destruct l; discriminate.
  - rewrite <- E, length_app. simpl.
    replace (List.length l + 1 - 1) with (List.length l + 0) by lia.
    rewrite nth_error_app2 by lia.
    replace (List.length l + 0 - List.length l) with 0 by lia. reflexivity.
Qed.

Ltac one_reply :=
  eexists; split; [reflexivity | split; [reflexivity|]]; simpl;
  rewrite !sent_app; simpl; rewrite ?app_nil_r;
  first [ right; reflexivity | left; eexists; reflexivity ].

(** Whatever the collaborators do, the [try]/[catch] of the photo
    callback ends normally with one more message: the description or the
    fixed error. *)
Lemma BotJs_analyze_replies_once env chatId fileId w :
  exists w',
    BotJs.analyze env chatId fileId w = (Returned tt, w')
    /\ users w' = users w
    /\ ((exists d, sent (trace w') = (sent (trace w) ++ [(chatId, BotJs.image_reply d)])%list)
        \/ sent (trace w') = (sent (trace w) ++ [(chatId, BotJs.image_error)])%list).
Proof.
  unfold BotJs.analyze. unfold_prims. simpl.
  destruct (getFile env fileId) as [[[path|]]|]; simpl; [| one_reply | one_reply].
  destruct (download env _) as [data|]; simpl; [| one_reply].
  destruct (generateContent env _ _) as [r|]; simpl; [| one_reply].
  destruct (response_text r) as [d|]; simpl; [| one_reply].
  destruct (saveChat_fails env _); simpl; one_reply.
Qed.


Lemma BotJs_onPhoto_is_analyze env msg sizes largest :
  Tg.photo msg = Some sizes -> Js.last_elem sizes = Some largest ->
  BotJs.onPhoto env msg = BotJs.analyze env (Tg.id (Tg.chat msg)) (Tg.file_id largest).
Proof.
  intros Hp Hl. unfold BotJs.onPhoto, defined, value_or_throw, bind, ret.
  rewrite Hp. simpl. rewrite Hl. reflexivity.
Qed.

Lemma WebhookJs_onPhoto_is_analyze env msg sizes largest :
  Tg.photo msg = Some sizes -> Js.last_elem sizes = Some largest ->
  WebhookJs.onPhoto env msg = WebhookJs.analyze env (Tg.id (Tg.chat msg)) (Tg.file_id largest).
Proof.
  intros Hp Hl. unfold WebhookJs.onPhoto, defined, value_or_throw, bind, ret.
  rewrite Hp. simpl. rewrite Hl. reflexivity.
Qed.




(* ================================================================== *)
(** * The [User] collection (C8, C9) *)
(* ================================================================== *)

(** C8: with the [User] collection answering, in both variants, the
    registration trigger from a chat_id that has no User record appends
    exactly one record, for that chat_id, and sends the welcome and then
    the contact request; from a chat_id that has a record it changes
    nothing in the store and sends the welcome-back message. *)
Theorem registration_creates_one_user env msg match_ w :
  let chatId := Tg.id (Tg.chat msg) in
  let firstName := Tg.first_name (Tg.chat msg) in
  let doc := User.mk chatId firstName (Tg.username (Tg.chat msg)) None in
  findOne_fails env chatId = false ->
  (~ registered chatId (users w) ->
   saveUser_fails env doc = false ->
   BotJs.onStart env msg match_ w
   = (Returned tt,
      {| users := users w ++ [doc];
         chats := chats w;
         trace := trace w ++ [EFindOne chatId; ESaveUser doc;
                              ESend chatId (BotJs.welcome firstName) None;
                              ESend chatId BotJs.contact_request
                                    (Some BotJs.share_keyboard)] |})
   /\ WebhookJs.onStart env msg match_ w
      = (Returned tt,
         {| users := users w ++ [doc];
            chats := chats w;
            trace := trace w ++ [EFindOne chatId; ESaveUser doc;
                                 ESend chatId (WebhookJs.welcome firstName) None;
                                 ESend chatId WebhookJs.contact_request
                                       (Some WebhookJs.share_keyboard)] |})
   /\ registered chatId (users w ++ [doc]))
  /\ (registered chatId (users w) ->
      BotJs.onStart env msg match_ w
      = (Returned tt,
         extend w [] [EFindOne chatId; ESend chatId (BotJs.welcome_back firstName) None])
      /\ WebhookJs.onStart env msg match_ w
         = (Returned tt,
            extend w [] [EFindOne chatId;
                         ESend chatId (WebhookJs.welcome_back firstName) None])).
Proof.
  intros chatId firstName doc Hf. subst chatId firstName doc.
  unfold BotJs.onStart, WebhookJs.onStart. split.
  - intros Hn Hs. apply find_user_none in Hn. repeat split; try solve [run].
    eexists. split; [apply in_or_app; right; left; reflexivity | reflexivity].
  - intros Hr. apply find_user_some in Hr. destruct Hr as [u Hu]. split; run.
Qed.

Lemma registration_witness :
  BotJs.onStart (Scenario.all_up "Hi!") (Scenario.text_update "/start") []
                Scenario.empty_world
  = (Returned tt,
     {| users := [User.mk 42 (Some "Ana") (Some "ana") None];
        chats := [];
        trace := [EFindOne 42; ESaveUser (User.mk 42 (Some "Ana") (Some "ana") None);
                  ESend 42 (BotJs.welcome (Some "Ana")) None;
                  ESend 42 BotJs.contact_request (Some BotJs.share_keyboard)] |}).
Proof.
  refine (proj1 (proj1 (registration_creates_one_user (Scenario.all_up "Hi!")
                          (Scenario.text_update "/start") [] Scenario.empty_world
                          eq_refl) _ eq_refl)).
  intros [u [[] _]].
Defined.

(** ** The contact callback *)

Lemma update_first_chat_ids chatId phone us :
  map User.chat_id (update_first chatId phone us) = map User.chat_id us.
Proof.
  induction us as [|u us IH]; simpl; [reflexivity|].
  destruct (Z.eqb (User.chat_id u) chatId); simpl; [reflexivity | now rewrite IH].
Qed.

Lemma find_user_update_first chatId phone us u :
  find_user chatId (update_first chatId phone us) = Some u ->
  User.phone_number u = Some phone.
Proof.
  induction us as [|v us IH]; simpl; [discriminate|].
  destruct (Z.eqb (User.chat_id v) chatId) eqn:E; simpl; rewrite E.
  - intros H. inversion H. reflexivity.
  - exact IH.
Qed.

Lemma update_first_keeps_registered chatId phone us :
  registered chatId us ->
  exists u, find_user chatId (update_first chatId phone us) = Some u
            /\ User.phone_number u = Some phone.
Proof.
  intros H.
  destruct (find_user chatId (update_first chatId phone us)) as [u|] eqn:E.
  - exists u. split; [reflexivity | exact (find_user_update_first _ _ _ _ E)].
  - apply find_user_none in E. elim E.
    destruct H as [v [Hin Hv]].
    assert (Hm : In chatId (map User.chat_id (update_first chatId phone us))).
    { rewrite update_first_chat_ids, <- Hv. now apply in_map. }
    apply in_map_iff in Hm. destruct Hm as [x [Hx Hin']]. now exists x.
Qed.

Lemma update_first_idempotent chatId phone us :
  update_first chatId phone (update_first chatId phone us)
  = update_first chatId phone us.
Proof.
  induction us as [|u us IH]; simpl; [reflexivity|].
  destruct (Z.eqb (User.chat_id u) chatId) eqn:E; simpl; rewrite E.
  - reflexivity.
  - now rewrite IH.
Qed.

Lemma update_first_unique chatId phone us u :
  unique_chat_ids us ->
  In u (update_first chatId phone us) ->
  User.chat_id u = chatId ->
  User.phone_number u = Some phone.
Proof.
  unfold unique_chat_ids. induction us as [|v us IH]; simpl; [contradiction|].
  intros Hnd Hin Hu. inversion Hnd as [|x l Hnotin Hnd']; subst x l.
  destruct (Z.eqb_spec (User.chat_id v) chatId) as [E|E].
  - destruct Hin as [<-|Hin]; [reflexivity|].
    elim Hnotin. rewrite E, <- Hu. now apply in_map.
  - destruct Hin as [<-|Hin]; [contradiction|]. now apply IH.
Qed.

Lemma BotJs_onContact_returned env msg contact w w' :
  Tg.contact msg = Some contact ->
  BotJs.onContact env msg w = (Returned tt, w') ->
  users w' = update_first (Tg.id (Tg.chat msg)) (Tg.phone_number contact) (users w)
  /\ chats w' = chats w.
Proof.
  intros Hc. unfold BotJs.onContact. unfold_prims. rewrite Hc. simpl.
  destruct (updateOne_fails env _ _); simpl; intros H; inversion H; now subst.
Qed.

Lemma WebhookJs_onContact_returned env msg contact w w' :
  Tg.contact msg = Some contact ->
  WebhookJs.onContact env msg w = (Returned tt, w') ->
  users w' = update_first (Tg.id (Tg.chat msg)) (Tg.phone_number contact) (users w)
  /\ chats w' = chats w.
Proof.
  intros Hc. unfold WebhookJs.onContact. unfold_prims. rewrite Hc. simpl.
  destruct (updateOne_fails env _ _); simpl; intros H; inversion H; now subst.
Qed.

(** C9, counterexample: a contact shared by a chat that has no record
    (it never sent the registration trigger): the callback completes and
    confirms, and no record holds the number, in either variant. *)
Lemma contact_of_unregistered_chat_is_not_stored :
  BotJs.onContact (Scenario.all_up "Hi!") (Scenario.contact_update "+15550100")
                  Scenario.empty_world
  = (Returned tt,
     {| users := []; chats := [];
        trace := [EUpdateOne 42 "+15550100";
                  ESend 42 "Phone number saved successfully! Now you can start asking questions."
                        (Some BotJs.hide_keyboard)] |})
  /\ WebhookJs.onContact (Scenario.all_up "Hi!") (Scenario.contact_update "+15550100")
                         Scenario.empty_world
     = (Returned tt,
        {| users := []; chats := [];
           trace := [EUpdateOne 42 "+15550100";
                     ESend 42 "Phone number saved! You can now start chatting." None] |})
  /\ find_user 42 (users (snd (BotJs.onContact (Scenario.all_up "Hi!")
                                 (Scenario.contact_update "+15550100")
                                 Scenario.empty_world))) = None.
Proof. repeat split; reflexivity. Qed.

(** C9, amended: in both variants, for a chat that has a User record,
    once the contact callback has completed the record found for the
    chat_id carries the submitted phone number, whatever it carried before
    (and every record of that chat_id does when chat_ids are unique in the
    store); a record that existed still exists; and a second submission
    of the same contact leaves the store as the first one left it. *)
Theorem contact_overwrites_phone env msg contact w w' :
  Tg.contact msg = Some contact ->
  BotJs.onContact env msg w = (Returned tt, w')
  \/ WebhookJs.onContact env msg w = (Returned tt, w') ->
  let chatId := Tg.id (Tg.chat msg) in
  let phone := Tg.phone_number contact in
  (forall u, find_user chatId (users w') = Some u -> User.phone_number u = Some phone)
  /\ (registered chatId (users w) ->
      exists u, find_user chatId (users w') = Some u /\ User.phone_number u = Some phone)
  /\ (unique_chat_ids (users w) ->
      forall u, In u (users w') -> User.chat_id u = chatId ->
                User.phone_number u = Some phone)
  /\ (forall env2 w'',
         BotJs.onContact env2 msg w' = (Returned tt, w'')
         \/ WebhookJs.onContact env2 msg w' = (Returned tt, w'') ->
         users w'' = users w' /\ chats w'' = chats w').
Proof.
  intros Hc Hrun chatId phone. subst chatId phone.
  assert (H1 : users w' = update_first (Tg.id (Tg.chat msg)) (Tg.phone_number contact)
                                        (users w)
               /\ chats w' = chats w).
  { destruct Hrun as [H|H];
      [eapply BotJs_onContact_returned | eapply WebhookJs_onContact_returned]; eauto. }
  destruct H1 as [Hu Hch]. rewrite Hu.
  split; [|split; [|split]].
  - intros u. apply find_user_update_first.
  - apply update_first_keeps_registered.
  - intros Huniq u. now apply update_first_unique.
  - intros env2 w'' Hrun2.
    assert (H2 : users w'' = update_first (Tg.id (Tg.chat msg)) (Tg.phone_number contact)
                                           (users w')
                 /\ chats w'' = chats w').
    { destruct Hrun2 as [H|H];
        [eapply BotJs_onContact_returned | eapply WebhookJs_onContact_returned]; eauto. }
    destruct H2 as [Hu2 Hch2]. rewrite Hu2, Hu, update_first_idempotent. auto.
Qed.

Lemma contact_overwrites_witness :
  exists u,
    find_user 42 (users (snd (BotJs.onContact (Scenario.all_up "Hi!")
                                (Scenario.contact_update "+15550100")
                                Scenario.registered_world))) = Some u
    /\ User.phone_number u = Some "+15550100".
Proof.
  refine (proj1 (proj2 (contact_overwrites_phone (Scenario.all_up "Hi!")
                          (Scenario.contact_update "+15550100")
                          {| Tg.phone_number := "+15550100" |}
                          Scenario.registered_world
                          (snd (BotJs.onContact (Scenario.all_up "Hi!")
                                  (Scenario.contact_update "+15550100")
                                  Scenario.registered_world))
                          eq_refl (or_introl eq_refl))) _).
  exists Scenario.ana_doc. split; [left; reflexivity | reflexivity].
Defined.

(* ================================================================== *)
(** * An invariant of the store: one record per chat_id *)
(* ================================================================== *)

Ltac cases :=
  repeat match goal with
         | |- context [match ?x with _ => _ end] =>
             match type of x with
             | option _ => destruct x; simpl
             | bool => destruct x; simpl
             end
         end.

Lemma unique_snoc (us : list User.t) (doc : User.t) :
  unique_chat_ids us ->
  find_user (User.chat_id doc) us = None ->
  unique_chat_ids (us ++ [doc]).
Proof.
  unfold unique_chat_ids. intros Hu Hf. apply find_user_none in Hf.
  induction us as [|u us IH]; simpl.
  - constructor; [intros [] | constructor].
  - inversion Hu as [|x l Hnotin Hu']; subst x l. constructor.
    + rewrite map_app, in_app_iff. simpl. intros [Hin | [Heq | []]].
      * contradiction.
      * apply Hf. exists u. split; [now left | congruence].
    + apply IH; [exact Hu'|]. intros [v [Hin Hv]]. apply Hf. exists v. split; [now right | exact Hv].
Qed.

Lemma BotJs_onStart_keeps_unique env msg caps : keeps_unique (BotJs.onStart env msg caps).
Proof.
  intros w Hu. unfold BotJs.onStart. unfold_prims. simpl.
  destruct (findOne_fails env _); simpl; [exact Hu|].
  destruct (find_user _ (users w)) eqn:E; simpl; [exact Hu|].
  destruct (saveUser_fails env _); simpl; [exact Hu|].
  now apply unique_snoc.
Qed.

Lemma WebhookJs_onStart_keeps_unique env msg caps :
  keeps_unique (WebhookJs.onStart env msg caps).
Proof.
  intros w Hu. unfold WebhookJs.onStart. unfold_prims. simpl.
  destruct (findOne_fails env _); simpl; [exact Hu|].
  destruct (find_user _ (users w)) eqn:E; simpl; [exact Hu|].
  destruct (saveUser_fails env _); simpl; [exact Hu|].
  now apply unique_snoc.
Qed.

Lemma update_first_keeps_unique chatId phone us :
  unique_chat_ids us -> unique_chat_ids (update_first chatId phone us).
Proof. unfold unique_chat_ids. now rewrite update_first_chat_ids. Qed.

Lemma BotJs_onContact_keeps_unique env msg : keeps_unique (BotJs.onContact env msg).
Proof.
  intros w Hu. unfold BotJs.onContact. unfold_prims. simpl.
  destruct (Tg.contact msg); simpl; [|exact Hu].
  destruct (updateOne_fails env _ _); simpl; [exact Hu|].
  now apply update_first_keeps_unique.
Qed.

Lemma WebhookJs_onContact_keeps_unique env msg : keeps_unique (WebhookJs.onContact env msg).
Proof.
  intros w Hu. unfold WebhookJs.onContact. unfold_prims. simpl.
  destruct (Tg.contact msg); simpl; [|exact Hu].
  destruct (updateOne_fails env _ _); simpl; [exact Hu|].
  now apply update_first_keeps_unique.
Qed.

Lemma keeps_unique_same_users (c : M unit) :
  (forall w, users (snd (c w)) = users w) -> keeps_unique c.
Proof. intros H w Hu. now rewrite H. Qed.

Lemma BotJs_onMessage_keeps_unique env msg : keeps_unique (BotJs.onMessage env msg).
Proof.
  apply keeps_unique_same_users. intros w.
  unfold BotJs.onMessage, BotJs.chat. unfold_prims. simpl. cases; reflexivity.
Qed.

Lemma WebhookJs_onMessage_keeps_unique env msg : keeps_unique (WebhookJs.onMessage env msg).
Proof.
  apply keeps_unique_same_users. intros w.
  unfold WebhookJs.onMessage. unfold_prims. simpl. cases; reflexivity.
Qed.

Lemma BotJs_onHelp_keeps_unique msg caps : keeps_unique (BotJs.onHelp msg caps).
Proof. apply keeps_unique_same_users. reflexivity. Qed.

Lemma BotJs_onWebsearch_keeps_unique env msg caps :
  keeps_unique (BotJs.onWebsearch env msg caps).
Proof.
  apply keeps_unique_same_users. intros w.
  unfold BotJs.onWebsearch. unfold_prims. simpl. cases; reflexivity.
Qed.

Lemma WebhookJs_onWebsearch_keeps_unique env msg caps :
  keeps_unique (WebhookJs.onWebsearch env msg caps).
Proof.
  apply keeps_unique_same_users. intros w.
  unfold WebhookJs.onWebsearch. unfold_prims. simpl. cases; reflexivity.
Qed.

Lemma BotJs_onPhoto_keeps_unique env msg : keeps_unique (BotJs.onPhoto env msg).
Proof.
  apply keeps_unique_same_users. intros w.
  unfold BotJs.onPhoto, BotJs.analyze. unfold_prims. simpl. cases; reflexivity.
Qed.

Lemma WebhookJs_onPhoto_keeps_unique env msg : keeps_unique (WebhookJs.onPhoto env msg).
Proof.
  apply keeps_unique_same_users. intros w.
  unfold WebhookJs.onPhoto, WebhookJs.analyze. unfold_prims. simpl. cases; reflexivity.
Qed.

Create HintDb unique.
#[local] Hint Resolve BotJs_onStart_keeps_unique WebhookJs_onStart_keeps_unique
  BotJs_onContact_keeps_unique WebhookJs_onContact_keeps_unique
  BotJs_onMessage_keeps_unique WebhookJs_onMessage_keeps_unique
  BotJs_onHelp_keeps_unique
  BotJs_onWebsearch_keeps_unique WebhookJs_onWebsearch_keeps_unique
  BotJs_onPhoto_keeps_unique WebhookJs_onPhoto_keeps_unique : unique.

Ltac callbacks_keep_unique :=
  unfold dispatch, emitted, matched;
  cbn [listeners textRegexpCallbacks BotJs.bot WebhookJs.bot flat_map];
  repeat match goal with
         | |- Forall _ (_ ++ _) => apply Forall_app; split
         | |- Forall _ (if ?b then _ else _) => destruct b
         | |- Forall _ (match ?x with _ => _ end) => destruct x
         | |- Forall _ [] => constructor
         | |- Forall _ (_ :: _) => constructor; [cbn [snd]; auto with unique|]
         end.

Lemma BotJs_callbacks_keep_unique env msg :
  Forall (fun hc => keeps_unique (snd hc)) (dispatch (BotJs.bot env) msg).
Proof. callbacks_keep_unique. Qed.

Lemma WebhookJs_callbacks_keep_unique env msg :
  Forall (fun hc => keeps_unique (snd hc)) (dispatch (WebhookJs.bot env) msg).
Proof. callbacks_keep_unique. Qed.

Lemma run_callback_users (c : M unit) (w : World) :
  users (run_callback c w) = users (snd (c w)).
Proof. unfold run_callback. destruct (c w) as [[a|e] w']; reflexivity. Qed.

Lemma run_callbacks_keep_unique (cs : list (Handler * M unit)) (w : World) :
  Forall (fun hc => keeps_unique (snd hc)) cs ->
  unique_chat_ids (users w) ->
  unique_chat_ids (users (fold_left (fun w c => run_callback (snd c) w) cs w)).
Proof.
  intros H. revert w. induction H as [|hc cs Hhc _ IH]; intros w Hu; simpl.
  - exact Hu.
  - apply IH. rewrite run_callback_users. now apply Hhc.
Qed.

(** The processing of one update, no other being in flight, keeps
    chat_ids unique: of the callbacks of one update, one at most writes
    to the [User] collection.  Nothing is said of two updates in flight
    together: the lookup and the insert of two registrations of one new
    chat can interleave, and no index forbids the second record. *)
Lemma processUpdate_keeps_unique env msg (w : World) :
  unique_chat_ids (users w) ->
  unique_chat_ids (users (processUpdate (BotJs.bot env) msg w))
  /\ unique_chat_ids (users (processUpdate (WebhookJs.bot env) msg w)).
Proof.
  intros Hu. split; unfold processUpdate; apply run_callbacks_keep_unique;
    auto using BotJs_callbacks_keep_unique, WebhookJs_callbacks_keep_unique.
Qed.

(* ================================================================== *)
(** * Boundary cases *)
(* ================================================================== *)

(** With the [User] collection unreachable, [/start] in [bot.js] ends in
    an unhandled rejection of the registration callback: no record, no
    message. *)
Remark registration_with_store_down :
  processUpdate (BotJs.bot (Scenario.users_down "Hi!")) (Scenario.text_update "/start")
                Scenario.empty_world
  = {| users := []; chats := []; trace := [EFindOne 42; EUnhandled StoreError] |}.
Proof. reflexivity. Qed.

(** A contact shared by a chat that has no record: [updateOne] matches
    nothing and does not insert; the confirmation is sent all the same. *)
Remark contact_without_record :
  BotJs.onContact (Scenario.all_up "Hi!") (Scenario.contact_update "+15550100")
                  Scenario.empty_world
  = (Returned tt,
     {| users := []; chats := [];
        trace := [EUpdateOne 42 "+15550100";
                  ESend 42 BotJs.phone_saved (Some BotJs.hide_keyboard)] |}).
Proof. reflexivity. Qed.

(** A search response whose [items] is an empty array is summarised like
    any other; only a response without [items] aborts the handler. *)
Remark empty_items_array_is_summarised :
  sent (trace (snd (BotJs.onWebsearch (Scenario.empty_items "Nothing found.")
                      (Scenario.text_update "/websearch zzz") ["zzz"]
                      Scenario.empty_world)))
  = [(42%Z, BotJs.search_reply EmptyString "Nothing found.")].
Proof. reflexivity. Qed.

(** A photo field with no sizes: the file id is read before the [try],
    so the callback throws and nothing is sent. *)
Remark photo_without_sizes :
  BotJs.onPhoto (Scenario.all_up "Hi!") (Scenario.photo_update []) Scenario.empty_world
  = (Thrown TypeError, Scenario.empty_world).
Proof. reflexivity. Qed.

(** The search trigger in [bot.js]: the message callback is invoked too
    and returns at its second test; the capture is the query. *)
Remark websearch_update_dispatch :
  handlers_invoked (BotJs.bot (Scenario.all_up "Summary text"))
                   (Scenario.text_update "/websearch rust ownership")
  = [HChat; HSearch]
  /\ Js.exec BotJs.re_websearch "/websearch rust ownership" = Some ["rust ownership"]
  /\ sent (trace (processUpdate (BotJs.bot (Scenario.all_up "Summary text"))
                                (Scenario.text_update "/websearch rust ownership")
                                Scenario.empty_world))
     = [(42%Z, BotJs.search_reply (BotJs.render_results Scenario.three_items)
                                  "Summary text")].
Proof. repeat split; reflexivity. Qed.

(* ================================================================== *)
(** * The search pattern *)
(* ================================================================== *)

#[local] Arguments Js.at_line_terminator : simpl never.

Lemma at_terminator_app (a b : string) :
  Js.at_line_terminator a = true -> Js.at_line_terminator (a ++ b) = true.
Proof.
  unfold Js.at_line_terminator.
  destruct a as [|c [|d [|e a]]]; simpl; try discriminate.
  - destruct (Js.is_line_terminator c); simpl; [reflexivity|].
    rewrite andb_false_r. discriminate.
  - destruct (Js.is_line_terminator c); simpl; [reflexivity|].
    rewrite andb_false_r. discriminate.
  - auto.
Qed.

Lemma line_prefix_split (s : string) :
  exists rest,
    s = line_prefix s ++ rest
    /\ (rest = EmptyString \/ Js.at_line_terminator rest = true).
Proof.
  induction s as [|c s [rest [IH1 IH2]]].
  - exists EmptyString. auto.
  - simpl line_prefix. destruct (Js.at_line_terminator (String c s)) eqn:E.
    + exists (String c s). split; [reflexivity | right; exact E].
    + exists rest. split; [simpl; now rewrite <- IH1 | exact IH2].
Qed.

Lemma line_prefix_single (s : string) : single_line (line_prefix s).
Proof.
  unfold single_line. induction s as [|c s IH]; [reflexivity|].
  simpl line_prefix. destruct (Js.at_line_terminator (String c s)) eqn:E; [reflexivity|].
  simpl line_prefix.
  destruct (Js.at_line_terminator (String c (line_prefix s))) eqn:E'.
  - destruct (line_prefix_split s) as [rest [Hs _]].
    apply at_terminator_app with (b := rest) in E'.
    simpl in E'. rewrite <- Hs in E'. congruence.
  - now rewrite IH.
Qed.

(** A terminator cannot begin in a line and end in what follows it, when
    what follows begins with a terminator itself. *)
Lemma no_terminator_across (d : ascii) (q rest : string) :
  Js.at_line_terminator (String d q) = false ->
  rest = EmptyString \/ Js.at_line_terminator rest = true ->
  Js.at_line_terminator (String d (q ++ rest)) = false.
Proof.
  intros Hq [-> | Hr]; [now rewrite append_nil_r|].
  destruct rest as [|a rest]; [discriminate|].
  assert (Ha : Ascii.eqb a (ascii_of_nat 128) = false
               /\ Ascii.eqb a (ascii_of_nat 168) = false
               /\ Ascii.eqb a (ascii_of_nat 169) = false).
  { repeat split;
      match goal with |- Ascii.eqb a ?x = false =>
        destruct (Ascii.eqb_spec a x) as [->|]; [|reflexivity];
        revert Hr; clear; unfold Js.at_line_terminator;
        destruct rest as [|? [|? ?]]; simpl; discriminate
      end. }
  destruct Ha as [H1 [H2 H3]].
  unfold Js.at_line_terminator in *.
  destruct q as [|x [|y q]]; simpl in *.
  - destruct (Js.is_line_terminator d); [discriminate|]. simpl.
    rewrite H1. simpl. destruct rest; apply andb_false_r.
  - destruct (Js.is_line_terminator d); [discriminate|]. simpl.
    rewrite H2, H3. simpl. now rewrite !andb_false_r.
  - exact Hq.
Qed.

Lemma line_prefix_query (q rest : string) :
  single_line q ->
  rest = EmptyString \/ Js.at_line_terminator rest = true ->
  line_prefix (q ++ rest) = q.
Proof.
  unfold single_line. intros Hq Hr. induction q as [|d q IH].
  - destruct Hr as [-> | Hr]; [reflexivity|].
    destruct rest as [|a rest]; [reflexivity|]. simpl. now rewrite Hr.
  - simpl line_prefix in Hq.
    destruct (Js.at_line_terminator (String d q)) eqn:E; [discriminate|].
    inversion Hq as [Hq']. rewrite Hq'.
    simpl append. simpl line_prefix.
    rewrite (no_terminator_across d q rest E Hr), (IH Hq'). reflexivity.
Qed.

Lemma line_prefix_nonempty (s : string) (c : ascii) (q : string) :
  line_prefix s = String c q ->
  s <> EmptyString /\ Js.at_line_terminator s = false.
Proof.
  destruct s as [|d s]; [discriminate|]. simpl line_prefix.
  destruct (Js.at_line_terminator (String d s)); [discriminate|].
  intros _. split; [discriminate | reflexivity].
Qed.

(** The group [(.+)] at the end of a pattern takes the rest of the
    line, and fails when there is nothing to take. *)
Lemma dotplus_at_end (k : string -> option (list string)) (acc s : string) :
  (forall r, k r = Some []) ->
  Js.dotplus k acc s =
    match acc ++ line_prefix s with
    | EmptyString => None
    | String c q => Some [String c q]
    end.
Proof.
  intros Hk. revert acc. induction s as [|c s IH]; intros acc.
  - simpl. rewrite append_nil_r, Hk. destruct acc; reflexivity.
  - simpl Js.dotplus. simpl line_prefix.
    destruct (Js.at_line_terminator (String c s)).
    + rewrite append_nil_r, Hk. destruct acc; reflexivity.
    + rewrite IH, append_assoc. simpl.
      destruct (acc ++ String c (line_prefix s)) eqn:E; [|reflexivity].
      destruct acc; discriminate.
Qed.

Lemma match_here_lit_app (p : string) (re : Js.Regex) (s : string) :
  Js.match_here (Js.lit p ++ re)%list s
  = if Js.startsWith s p then Js.match_here re (Js.drop (String.length p) s) else None.
Proof.
  revert s. induction p as [|c p IH]; intros s; simpl; [reflexivity|].
  destruct s as [|d s]; [reflexivity|].
  destruct (Ascii.eqb c d); [apply IH | reflexivity].
Qed.

(** The search pattern at the start of a text. *)
Lemma match_here_websearch (s : string) :
  Js.match_here BotJs.re_websearch s
  = if Js.startsWith s "/websearch "
    then match line_prefix (Js.drop 11 s) with
         | EmptyString => None
         | String c q => Some [String c q]
         end
    else None.
Proof.
  unfold BotJs.re_websearch. rewrite match_here_lit_app.
  destruct (Js.startsWith s "/websearch "); [|reflexivity].
  simpl Js.match_here. rewrite dotplus_at_end by reflexivity. reflexivity.
Qed.

Lemma match_here_websearch_some (s : string) (caps : list string) :
  Js.match_here BotJs.re_websearch s = Some caps ->
  exists q rest,
    caps = [q] /\ q <> EmptyString /\ single_line q
    /\ s = "/websearch " ++ q ++ rest
    /\ (rest = EmptyString \/ Js.at_line_terminator rest = true).
Proof.
  rewrite match_here_websearch.
  destruct (Js.startsWith s "/websearch ") eqn:E; [|discriminate].
  apply startsWith_spec in E. destruct E as [r ->].
  change (Js.drop 11 ("/websearch " ++ r)) with r.
  destruct (line_prefix r) as [|c q] eqn:El; [discriminate|].
  intros H. inversion H; subst caps.
  destruct (line_prefix_split r) as [rest [Hr Hrest]].
  exists (String c q), rest. rewrite <- El.
  repeat split.
  - rewrite El. discriminate.
  - apply line_prefix_single.
  - now rewrite <- Hr.
  - exact Hrest.
Qed.

Lemma exec_websearch_iff (t : string) :
  (exists caps, Js.exec BotJs.re_websearch t = Some caps) <-> has_search_argument t.
Proof.
  unfold has_search_argument. split.
  - intros [caps H]. induction t as [|d t IH]; rewrite exec_unfold in H.
    + destruct (Js.match_here BotJs.re_websearch EmptyString) eqn:E; [|discriminate].
      rewrite match_here_websearch in E. discriminate.
    + destruct (Js.match_here BotJs.re_websearch (String d t)) as [cs|] eqn:E.
      * rewrite match_here_websearch in E.
        destruct (Js.startsWith (String d t) "/websearch ") eqn:Es; [|discriminate].
        apply startsWith_spec in Es. destruct Es as [r Hr]. rewrite Hr in E.
        change (Js.drop 11 ("/websearch " ++ r)) with r in E.
        destruct (line_prefix r) as [|c q] eqn:El; [discriminate|].
        destruct (line_prefix_nonempty r c q El) as [Hne Hat].
        exists EmptyString, r. auto.
      * destruct (IH H) as [a [b [Hab Hb]]].
        exists (String d a), b. split; [simpl; now rewrite Hab | exact Hb].
  - intros [before [after [-> [Hne Hat]]]].
    induction before as [|d before IH]; simpl (_ ++ _); rewrite exec_unfold.
    + rewrite match_here_websearch.
      change (Js.startsWith ("/websearch " ++ after) "/websearch ")
        with (Js.startsWith after EmptyString).
      change (Js.drop 11 ("/websearch " ++ after)) with after.
      destruct after as [|c after]; [congruence|].
      simpl line_prefix. rewrite Hat. simpl. eauto.
    + destruct (Js.match_here BotJs.re_websearch _); [eauto | exact IH].
Qed.

Lemma exec_websearch_none (t : string) :
  ~ has_search_argument t -> Js.exec BotJs.re_websearch t = None.
Proof.
  intros H. destruct (Js.exec BotJs.re_websearch t) as [caps|] eqn:E; [|reflexivity].
  elim H. apply exec_websearch_iff. eauto.
Qed.

(** X1: the search pattern [/\/websearch (.+)/] of either variant matches
    a text exactly when the text has an occurrence of [/websearch ]
    followed by a character that is not a line terminator (LF, CR, U+2028
    or U+2029); the bare command, or the command followed only by a space
    or a line break, does not match. *)
Theorem websearch_pattern_matches (t : string) :
  ((exists caps, Js.exec BotJs.re_websearch t = Some caps) <-> has_search_argument t)
  /\ ((exists caps, Js.exec WebhookJs.re_websearch t = Some caps)
      <-> has_search_argument t).
Proof. split; apply exec_websearch_iff. Qed.

Lemma websearch_pattern_witness :
  exists caps, Js.exec BotJs.re_websearch "tell me /websearch rust" = Some caps.
Proof.
  apply (proj2 (proj1 (websearch_pattern_matches "tell me /websearch rust"))).
  exists "tell me ", "rust". repeat split. discriminate.
Defined.

(** X2: the query handed to the Search Handler is the rest of the line
    after [/websearch ]: whenever the pattern matches, its one capture is
    a non-empty text without line terminator that follows an occurrence
    of [/websearch ] and runs to the end of the line (the end of the text,
    or a LF, CR, U+2028 or U+2029); and for a text that begins with the
    command the capture is exactly the first line's argument, later lines
    being dropped. *)
Theorem websearch_query_capture :
  (forall t caps,
      Js.exec BotJs.re_websearch t = Some caps ->
      exists before q rest,
        caps = [q] /\ q <> EmptyString /\ single_line q
        /\ t = before ++ "/websearch " ++ q ++ rest
        /\ (rest = EmptyString \/ Js.at_line_terminator rest = true))
  /\ (forall q rest,
         q <> EmptyString ->
         single_line q ->
         (rest = EmptyString \/ Js.at_line_terminator rest = true) ->
         Js.exec BotJs.re_websearch ("/websearch " ++ q ++ rest) = Some [q]).
Proof.
  split.
  - intros t. induction t as [|d t IH]; intros caps H; rewrite exec_unfold in H.
    + destruct (Js.match_here BotJs.re_websearch EmptyString) eqn:E; [|discriminate].
      rewrite match_here_websearch in E. discriminate.
    + destruct (Js.match_here BotJs.re_websearch (String d t)) as [cs|] eqn:E.
      * inversion H; subst cs. apply match_here_websearch_some in E.
        destruct E as [q [rest E]]. exists EmptyString, q, rest. exact E.
      * destruct (IH caps H) as [a [q [rest [H1 [H2 [H3 [H4 H5]]]]]]].
        exists (String d a), q, rest. repeat split; auto.
        simpl. now rewrite H4.
  - intros q rest Hne Hq Hrest.
    rewrite exec_unfold, match_here_websearch.
    change (Js.startsWith ("/websearch " ++ q ++ rest) "/websearch ")
      with (Js.startsWith (q ++ rest) EmptyString).
    change (Js.drop 11 ("/websearch " ++ q ++ rest)) with (q ++ rest).
    rewrite (line_prefix_query q rest Hq Hrest).
    destruct q; [congruence | reflexivity].
Qed.

Lemma websearch_query_witness :
  Js.exec BotJs.re_websearch
          ("/websearch " ++ "rust ownership"
             ++ String (ascii_of_nat 226) (String (ascii_of_nat 128)
                  (String (ascii_of_nat 168) "and more")))
  = Some ["rust ownership"].
Proof.
  apply (proj2 websearch_query_capture "rust ownership"
               (String (ascii_of_nat 226) (String (ascii_of_nat 128)
                  (String (ascii_of_nat 168) "and more")))).
  - discriminate.
  - reflexivity.
  - right. reflexivity.
Defined.

(* ================================================================== *)
(** * The router (C1) *)
(* ================================================================== *)

Lemma not_startsWith (t p : string) :
  ~ (exists rest, t = p ++ rest) -> Js.startsWith t p = false.
Proof.
  intros H. destruct (Js.startsWith t p) eqn:E; [|reflexivity].
  apply startsWith_spec in E. contradiction.
Qed.

Lemma is_prefix_startsWith (p rest : string) : Js.startsWith (p ++ rest) p = true.
Proof. apply startsWith_spec. now exists rest. Qed.

Lemma nonempty_prefix (p rest : string) :
  p <> EmptyString -> exists c t, p ++ rest = String c t.
Proof. destruct p; [congruence | simpl; eauto]. Qed.

(** The message callback of [bot.js] returns before its first [await],
    having done nothing, on an update without text. *)
Lemma BotJs_onMessage_without_text env msg w :
  Js.truthy (Tg.text msg) = false -> BotJs.onMessage env msg w = (Returned tt, w).
Proof.
  intros Ht. unfold BotJs.onMessage, BotJs.text_startsWith.
  destruct (Tg.text msg) as [[|c t]|]; try discriminate; reflexivity.
Qed.

(** No text callback is tried on an update without text. *)
Lemma matched_without_text bot msg : Js.truthy (Tg.text msg) = false -> matched bot msg = [].
Proof.
  intros Ht. unfold matched.
  destruct (Tg.text msg) as [[|c t]|]; try discriminate; reflexivity.
Qed.

(** The [try]/[catch] of the search callback of [bot.js] ends normally
    with one more message sent. *)
Lemma BotJs_onWebsearch_replies_once env msg caps w :
  exists r w',
    BotJs.onWebsearch env msg caps w = (Returned tt, w')
    /\ users w' = users w
    /\ sent (trace w') = (sent (trace w) ++ [(Tg.id (Tg.chat msg), r)])%list.
Proof.
  unfold BotJs.onWebsearch. unfold_prims. simpl.
  cases; do 2 eexists; (split; [reflexivity | split; [reflexivity|]]); simpl;
    rewrite !sent_app; simpl; rewrite ?app_nil_r, <- ?app_assoc; reflexivity.
Qed.

(** C1, counterexample: in [bot.js] the update [/help] invokes two
    callbacks, and each sends a message; in the webhook variant a photo
    update does (here with the model unreachable, each callback sends its
    own error message); and a first [/start] gets two messages from one
    handler.  Each callback is run on its own: nothing is said of the
    order in which the two messages leave. *)
Lemma help_update_two_handlers_two_replies :
  (handlers_invoked (BotJs.bot (Scenario.all_up "Hi!")) (Scenario.text_update "/help")
     = [HChat; HHelp]
   /\ sent (trace (snd (BotJs.onMessage (Scenario.all_up "Hi!")
                                        (Scenario.text_update "/help")
                                        Scenario.empty_world)))
      = [(42%Z, "Hi!")]
   /\ sent (trace (snd (BotJs.onHelp (Scenario.text_update "/help") []
                                     Scenario.empty_world)))
      = [(42%Z, BotJs.help_text)])
  /\ (handlers_invoked (WebhookJs.bot Scenario.ai_down)
                       (Scenario.photo_update Scenario.two_sizes)
        = [HChat; HImage]
      /\ sent (trace (snd (WebhookJs.onMessage Scenario.ai_down
                                               (Scenario.photo_update Scenario.two_sizes)
                                               Scenario.empty_world)))
         = [(42%Z, WebhookJs.chat_apology)]
      /\ sent (trace (snd (WebhookJs.onPhoto Scenario.ai_down
                                             (Scenario.photo_update Scenario.two_sizes)
                                             Scenario.empty_world)))
         = [(42%Z, WebhookJs.image_error)])
  /\ (replies_of (BotJs.onStart (Scenario.all_up "Hi!") (Scenario.text_update "/start") [])
                 Scenario.empty_world = 2).
Proof. repeat split; vm_compute; reflexivity. Qed.

(** C1, amended: a text update whose text is not empty and contains none
    of the triggers ([/start], [/websearch], and in [bot.js] [/help]) is
    dispatched to the Chat Handler alone and gets exactly one outbound
    message, in both variants.  In [bot.js] three more kinds of update
    get exactly one message, from the handler of their kind, the message
    callback being invoked too but returning at once: a text that begins
    with [/websearch], gives the pattern an argument and contains neither
    [/start] nor [/help]; a contact update whose write to the store
    succeeds; and a photo update with at least one size.  In [bot.js] an
    update without text, contact or photo reaches the message callback
    only, which returns at once: no message is sent and nothing changes.
    And the Registration Handler answers a chat_id that has no record
    with two messages. *)
Theorem router_replies env msg w :
  let chatId := Tg.id (Tg.chat msg) in
  (forall t,
      Tg.text msg = Some t ->
      t <> EmptyString ->
      ~ contains t "/start" ->
      ~ contains t "/websearch" ->
      (~ contains t "/help" ->
       handlers_invoked (BotJs.bot env) msg = [HChat]
       /\ exists r,
           sent (trace (processUpdate (BotJs.bot env) msg w))
           = (sent (trace w) ++ [(chatId, r)])%list)
      /\ (handlers_invoked (WebhookJs.bot env) msg = [HChat]
          /\ exists r,
              sent (trace (processUpdate (WebhookJs.bot env) msg w))
              = (sent (trace w) ++ [(chatId, r)])%list))
  /\ (forall rest,
         Tg.text msg = Some ("/websearch" ++ rest) ->
         has_search_argument ("/websearch" ++ rest) ->
         ~ contains ("/websearch" ++ rest) "/start" ->
         ~ contains ("/websearch" ++ rest) "/help" ->
         handlers_invoked (BotJs.bot env) msg = [HChat; HSearch]
         /\ BotJs.onMessage env msg w = (Returned tt, w)
         /\ exists r,
             sent (trace (processUpdate (BotJs.bot env) msg w))
             = (sent (trace w) ++ [(chatId, r)])%list)
  /\ (Js.truthy (Tg.text msg) = false ->
      BotJs.onMessage env msg w = (Returned tt, w)
      /\ (forall contact,
             Tg.contact msg = Some contact ->
             updateOne_fails env chatId (Tg.phone_number contact) = false ->
             handlers_invoked (BotJs.bot env) msg = [HChat; HContact]
             /\ sent (trace (processUpdate (BotJs.bot env) msg w))
                = (sent (trace w) ++ [(chatId, BotJs.phone_saved)])%list)
      /\ (forall smaller largest,
             Tg.contact msg = None ->
             Tg.photo msg = Some (smaller ++ [largest])%list ->
             handlers_invoked (BotJs.bot env) msg = [HChat; HImage]
             /\ exists r,
                 sent (trace (processUpdate (BotJs.bot env) msg w))
                 = (sent (trace w) ++ [(chatId, r)])%list)
      /\ (Tg.contact msg = None ->
          Tg.photo msg = None ->
          handlers_invoked (BotJs.bot env) msg = [HChat]
          /\ processUpdate (BotJs.bot env) msg w = w))
  /\ (forall match_,
         findOne_fails env chatId = false ->
         ~ registered chatId (users w) ->
         saveUser_fails env (User.mk chatId (Tg.first_name (Tg.chat msg))
                                     (Tg.username (Tg.chat msg)) None) = false ->
         replies_of (BotJs.onStart env msg match_) w = 2
         /\ replies_of (WebhookJs.onStart env msg match_) w = 2).
Proof.
  intros chatId. subst chatId. split; [|split; [|split]].
  - intros t Ht Hne Hs Hw.
    destruct t as [|c t]; [congruence|].
    assert (Es : Js.exec (Js.lit "/start") (String c t) = None) by now apply exec_lit_none.
    assert (Ew : Js.exec BotJs.re_websearch (String c t) = None)
      by now apply websearch_needs_trigger.
    split.
    + intros Hh.
      assert (Eh : Js.exec (Js.lit "/help") (String c t) = None) by now apply exec_lit_none.
      unfold handlers_invoked, processUpdate.
      rewrite (BotJs_dispatch_text env msg c t Ht).
      unfold BotJs.re_start, BotJs.re_help. rewrite Es, Eh, Ew. simpl.
      split; [reflexivity|].
      unfold run_callback, BotJs.onMessage, BotJs.text_startsWith. rewrite Ht.
      destruct (Js.startsWith (String c t) "/start") eqn:E1;
        [apply startsWith_contains in E1; contradiction|].
      destruct (Js.startsWith (String c t) "/websearch") eqn:E2;
        [apply startsWith_contains in E2; contradiction|].
      simpl.
      destruct (BotJs_chat_replies_once env (Tg.id (Tg.chat msg)) (Some (String c t)) w)
        as [r [w' [Hrun [_ Hsent]]]].
      rewrite Hrun. now exists r.
    + unfold handlers_invoked, processUpdate.
      rewrite (WebhookJs_dispatch_text env msg c t Ht).
      unfold WebhookJs.re_start.
      change WebhookJs.re_websearch with BotJs.re_websearch.
      rewrite Es, Ew. simpl.
      split; [reflexivity|].
      unfold run_callback.
      destruct (WebhookJs_onMessage_replies_once env msg w) as [r [w' [Hrun [_ Hsent]]]].
      rewrite Hrun. now exists r.
  - intros rest Ht Harg Hs Hh.
    assert (Es : Js.exec (Js.lit "/start") ("/websearch" ++ rest) = None)
      by now apply exec_lit_none.
    assert (Eh : Js.exec (Js.lit "/help") ("/websearch" ++ rest) = None)
      by now apply exec_lit_none.
    apply exec_websearch_iff in Harg. destruct Harg as [caps Ew].
    assert (Hm : BotJs.onMessage env msg w = (Returned tt, w)).
    { unfold BotJs.onMessage, BotJs.text_startsWith. rewrite Ht. reflexivity. }
    destruct (nonempty_prefix "/websearch" rest) as [c [t' Hct]]; [discriminate|].
    rewrite Hct in *.
    unfold handlers_invoked, processUpdate.
    rewrite (BotJs_dispatch_text env msg c t' Ht).
    unfold BotJs.re_start, BotJs.re_help. rewrite Es, Eh, Ew. simpl fold_left. simpl map.
    split; [reflexivity | split; [exact Hm|]].
    unfold run_callback at 2. rewrite Hm.
    destruct (BotJs_onWebsearch_replies_once env msg caps w) as [r [w' [Hrun [_ Hsent]]]].
    unfold run_callback. rewrite Hrun. now exists r.
  - intros Ht.
    pose proof (BotJs_onMessage_without_text env msg w Ht) as Hm.
    split; [exact Hm|].
    unfold handlers_invoked, processUpdate, dispatch, message_type.
    rewrite Ht, (matched_without_text _ msg Ht). unfold emitted.
    split; [|split].
    + intros contact Hc Hu. rewrite Hc. simpl. split; [reflexivity|].
      unfold run_callback at 2. rewrite Hm.
      unfold run_callback, BotJs.onContact. unfold_prims. rewrite Hc. simpl.
      rewrite Hu. simpl. rewrite <- app_assoc, sent_app. reflexivity.
    + intros smaller largest Hc Hp. rewrite Hc, Hp. simpl. split; [reflexivity|].
      unfold run_callback at 2. rewrite Hm.
      rewrite (BotJs_onPhoto_is_analyze env msg _ largest Hp (last_elem_app smaller largest)).
      destruct (BotJs_analyze_replies_once env (Tg.id (Tg.chat msg)) (Tg.file_id largest) w)
        as [w' [Hrun [_ Hsent]]].
      unfold run_callback. rewrite Hrun.
      destruct Hsent as [[d Hd] | He]; eauto.
    + intros Hc Hp. rewrite Hc, Hp. simpl.
      unfold run_callback. rewrite Hm. split; reflexivity.
  - intros match_ Hf Hn Hs. apply find_user_none in Hn.
    unfold replies_of, BotJs.onStart, WebhookJs.onStart. unfold_prims. simpl.
    rewrite Hf. simpl. rewrite Hn. simpl. rewrite Hs. simpl.
    rewrite <- !app_assoc, !sent_app, !length_app. simpl. split; lia.
Qed.

Lemma router_replies_witness :
  handlers_invoked (BotJs.bot (Scenario.all_up "Hi!")) (Scenario.text_update "hello") = [HChat]
  /\ exists r,
      sent (trace (processUpdate (BotJs.bot (Scenario.all_up "Hi!"))
                                 (Scenario.text_update "hello") Scenario.empty_world))
      = (sent (trace Scenario.empty_world) ++ [(42%Z, r)])%list.
Proof.
  assert (N : forall p, Js.exec (Js.lit p) "hello" = None -> ~ contains "hello" p)
    by (intros p; apply exec_lit_none).
  refine (proj1 (proj1 (router_replies (Scenario.all_up "Hi!")
                          (Scenario.text_update "hello") Scenario.empty_world)
                       "hello" eq_refl _ _ _) _).
  - discriminate.
  - apply N. reflexivity.
  - apply N. reflexivity.
  - apply N. reflexivity.
Defined.

(* ================================================================== *)
(** * More on the dispatch *)
(* ================================================================== *)

Ltac in_cases H :=
  simpl in H; repeat (destruct H as [H|H]; try discriminate); try contradiction.

(** X3: [/help] is an unanchored trigger of [bot.js] only: there the help
    callback is invoked exactly when the text contains [/help], and it
    sends the help text to the chat of the update and does nothing else;
    the webhook variant never invokes a help handler. *)
Theorem help_trigger env msg t :
  Tg.text msg = Some t ->
  (contains t "/help" <-> In HHelp (handlers_invoked (BotJs.bot env) msg))
  /\ ~ In HHelp (handlers_invoked (WebhookJs.bot env) msg)
  /\ (forall caps w,
         BotJs.onHelp msg caps w
         = (Returned tt, extend w [] [ESend (Tg.id (Tg.chat msg)) BotJs.help_text None])).
Proof.
  intros Ht. split; [|split].
  - destruct t as [|c t].
    + assert (Hno : ~ contains EmptyString "/help").
      { intros H. apply contains_nonempty in H; [|discriminate].
        destruct H as [? [? ?]]; discriminate. }
      unfold handlers_invoked, dispatch, emitted, matched, message_type. rewrite Ht.
      destruct (Tg.contact msg), (Tg.photo msg); simpl;
        split; intros H; try (now elim Hno); in_cases H.
    + unfold handlers_invoked. rewrite (BotJs_dispatch_text env msg c t Ht).
      unfold BotJs.re_help.
      destruct (exec_lit_cases "/help" (String c t)) as [E|E]; rewrite E;
        destruct (Js.exec BotJs.re_start (String c t)),
                 (Js.exec BotJs.re_websearch (String c t)).
      1-4: assert (Hc : contains (String c t) "/help") by (now apply exec_lit_contains);
        split; intros _; try exact Hc; simpl;
        repeat (first [left; reflexivity | right]).
      all: assert (Hc : ~ contains (String c t) "/help") by (now apply exec_lit_none);
        split; intros H; try (now elim Hc); exfalso; in_cases H.
  - destruct t as [|c t].
    + unfold handlers_invoked, dispatch, emitted, matched, message_type. rewrite Ht.
      destruct (Tg.contact msg), (Tg.photo msg); simpl; intros H; in_cases H.
    + unfold handlers_invoked. rewrite (WebhookJs_dispatch_text env msg c t Ht).
      destruct (Js.exec WebhookJs.re_start (String c t)),
               (Js.exec WebhookJs.re_websearch (String c t));
        intros H; in_cases H.
  - intros caps w. unfold BotJs.onHelp. run.
Qed.

Lemma help_trigger_witness :
  In HHelp (handlers_invoked (BotJs.bot Scenario.ai_down)
                             (Scenario.text_update "I need /help please")).
Proof.
  apply (proj1 (proj1 (help_trigger Scenario.ai_down
                         (Scenario.text_update "I need /help please")
                         "I need /help please" eq_refl))).
  now exists "I need ", " please".
Defined.

(** X4: in [bot.js] a text that begins with [/websearch] but gives the
    pattern nothing to capture (and holds no other trigger) is dropped
    without a trace: the message callback returns at its second test and
    no other callback matches, so nothing is called, stored or sent.  The
    webhook variant hands the same text to the Chat Handler, which answers
    it. *)
Theorem bare_search_command env msg rest w :
  let t := "/websearch" ++ rest in
  Tg.text msg = Some t ->
  ~ has_search_argument t ->
  ~ contains t "/start" ->
  ~ contains t "/help" ->
  processUpdate (BotJs.bot env) msg w = w
  /\ handlers_invoked (WebhookJs.bot env) msg = [HChat]
  /\ exists r,
      sent (trace (processUpdate (WebhookJs.bot env) msg w))
      = (sent (trace w) ++ [(Tg.id (Tg.chat msg), r)])%list.
Proof.
  intros t Ht Hw Hs Hh.
  assert (Es : Js.exec (Js.lit "/start") t = None) by now apply exec_lit_none.
  assert (Eh : Js.exec (Js.lit "/help") t = None) by now apply exec_lit_none.
  assert (Ew : Js.exec BotJs.re_websearch t = None) by now apply exec_websearch_none.
  assert (S1 : Js.startsWith t "/start" = false).
  { apply not_startsWith. intros [r Hr]. apply Hs. exists EmptyString, r. exact Hr. }
  assert (S2 : Js.startsWith t "/websearch" = true) by apply is_prefix_startsWith.
  destruct (nonempty_prefix "/websearch" rest) as [c [t' Hct]]; [discriminate|].
  fold t in Hct. rewrite Hct in *.
  unfold handlers_invoked, processUpdate.
  rewrite (BotJs_dispatch_text env msg c t' Ht), (WebhookJs_dispatch_text env msg c t' Ht).
  unfold BotJs.re_start, BotJs.re_help, WebhookJs.re_start.
  change WebhookJs.re_websearch with BotJs.re_websearch.
  rewrite Es, Eh, Ew. simpl fold_left. simpl map.
  split; [|split; [reflexivity|]].
  - unfold run_callback, BotJs.onMessage, BotJs.text_startsWith.
    rewrite Ht, S1, S2. reflexivity.
  - unfold run_callback.
    destruct (WebhookJs_onMessage_replies_once env msg w) as [r [w' [Hrun [_ Hsent]]]].
    rewrite Hrun. now exists r.
Qed.

Lemma bare_search_command_witness :
  processUpdate (BotJs.bot (Scenario.all_up "Hi!")) (Scenario.text_update "/websearch")
                Scenario.empty_world
  = Scenario.empty_world.
Proof.
  assert (N : forall p, Js.exec (Js.lit p) "/websearch" = None -> ~ contains "/websearch" p)
    by (intros p; apply exec_lit_none).
  refine (proj1 (bare_search_command (Scenario.all_up "Hi!")
                   (Scenario.text_update "/websearch") EmptyString Scenario.empty_world
                   eq_refl _ _ _)).
  - intros H. apply exec_websearch_iff in H. destruct H as [caps H]. discriminate.
  - apply N. reflexivity.
  - apply N. reflexivity.
Defined.

(** The message callback of the webhook variant, on any update: its
    first step is the call to the model with the text of the update,
    missing or not; it returns normally and sends one message. *)
Lemma WebhookJs_onMessage_calls_model env msg w :
  exists r w1 more,
    WebhookJs.onMessage env msg w = (Returned tt, w1)
    /\ trace w1
       = (trace w
            ++ EGenerate "gemini-1.5-pro" (ReqContents "user" [PText (Tg.text msg)])
            :: more)%list
    /\ sent (trace w1) = (sent (trace w) ++ [(Tg.id (Tg.chat msg), r)])%list.
Proof.
  unfold WebhookJs.onMessage. unfold_prims. simpl.
  destruct (generateContent env _ _) as [res|]; simpl;
    [destruct (saveChat_fails env _); simpl|];
    do 3 eexists;
    (split; [reflexivity | split; [simpl; rewrite <- !app_assoc; simpl; reflexivity|]]);
    simpl; rewrite !sent_app; simpl; rewrite ?app_nil_r, <- ?app_assoc; reflexivity.
Qed.

(** X5: the test of [bot.js] on the beginning of the text keeps commands
    away from the model: for a text that begins with [/start] (and holds
    no other trigger) only the registration callback acts, the message
    callback returning at once.  The webhook variant has no such test:
    there the message callback is invoked as well as the registration
    callback, sends the command to the model and answers with a message
    of its own. *)
Theorem start_command_dispatch env msg rest w :
  let t := "/start" ++ rest in
  Tg.text msg = Some t ->
  ~ has_search_argument t ->
  ~ contains t "/help" ->
  (BotJs.onMessage env msg w = (Returned tt, w)
   /\ processUpdate (BotJs.bot env) msg w = run_callback (BotJs.onStart env msg []) w)
  /\ handlers_invoked (WebhookJs.bot env) msg = [HChat; HRegistration]
  /\ exists r w1 more,
      WebhookJs.onMessage env msg w = (Returned tt, w1)
      /\ trace w1
         = (trace w
              ++ EGenerate "gemini-1.5-pro" (ReqContents "user" [PText (Some t)])
              :: more)%list
      /\ sent (trace w1) = (sent (trace w) ++ [(Tg.id (Tg.chat msg), r)])%list.
Proof.
  intros t Ht Hw Hh.
  assert (Es : Js.exec (Js.lit "/start") t = Some []).
  { apply exec_lit_contains. now exists EmptyString, rest. }
  assert (Eh : Js.exec (Js.lit "/help") t = None) by now apply exec_lit_none.
  assert (Ew : Js.exec BotJs.re_websearch t = None) by now apply exec_websearch_none.
  assert (S1 : Js.startsWith t "/start" = true) by apply is_prefix_startsWith.
  assert (Hm : BotJs.onMessage env msg w = (Returned tt, w)).
  { unfold BotJs.onMessage, BotJs.text_startsWith. rewrite Ht, S1. reflexivity. }
  destruct (WebhookJs_onMessage_calls_model env msg w) as [r [w1 [more [Hrun [Htr Hsent]]]]].
  rewrite Ht in Htr.
  destruct (nonempty_prefix "/start" rest) as [c [t' Hct]]; [discriminate|].
  fold t in Hct. rewrite Hct in *.
  unfold handlers_invoked, processUpdate.
  rewrite (BotJs_dispatch_text env msg c t' Ht), (WebhookJs_dispatch_text env msg c t' Ht).
  unfold BotJs.re_start, BotJs.re_help, WebhookJs.re_start.
  change WebhookJs.re_websearch with BotJs.re_websearch.
  rewrite Es, Eh, Ew. simpl fold_left. simpl map.
  split; [split; [exact Hm|] | split; [reflexivity|]].
  - f_equal. unfold run_callback. rewrite Hm. reflexivity.
  - exists r, w1, more. auto.
Qed.

Lemma start_command_witness :
  processUpdate (BotJs.bot (Scenario.all_up "Hi!")) (Scenario.text_update "/start")
                Scenario.empty_world
  = run_callback (BotJs.onStart (Scenario.all_up "Hi!") (Scenario.text_update "/start") [])
                 Scenario.empty_world.
Proof.
  refine (proj2 (proj1 (start_command_dispatch (Scenario.all_up "Hi!")
                          (Scenario.text_update "/start") EmptyString Scenario.empty_world
                          eq_refl _ _))).
  - intros H. apply exec_websearch_iff in H. destruct H as [caps H]. discriminate.
  - apply exec_lit_none. reflexivity.
Defined.

(** X6: the test of [bot.js] looks at the beginning of the text while the
    registration pattern looks anywhere: for a text that holds [/start]
    further on (and no other trigger) both the message callback and the
    registration callback are invoked, and the message callback does not
    return early: it calls the model with the whole text and sends
    exactly one message of its own. *)
Theorem start_inside_text_dispatch env msg t w :
  Tg.text msg = Some t ->
  contains t "/start" ->
  ~ (exists rest, t = "/start" ++ rest) ->
  ~ contains t "/websearch" ->
  ~ contains t "/help" ->
  handlers_invoked (BotJs.bot env) msg = [HChat; HRegistration]
  /\ exists r w1 more,
      BotJs.onMessage env msg w = (Returned tt, w1)
      /\ trace w1
         = (trace w ++ EGenerate "gemini-pro" (ReqContents "user" [PText (Some t)])
                    :: more)%list
      /\ sent (trace w1) = (sent (trace w) ++ [(Tg.id (Tg.chat msg), r)])%list.
Proof.
  intros Ht Hs Hns Hw Hh.
  assert (Es : Js.exec (Js.lit "/start") t = Some []) by now apply exec_lit_contains.
  assert (Eh : Js.exec (Js.lit "/help") t = None) by now apply exec_lit_none.
  assert (Ew : Js.exec BotJs.re_websearch t = None) by now apply websearch_needs_trigger.
  assert (S1 : Js.startsWith t "/start" = false) by now apply not_startsWith.
  assert (S2 : Js.startsWith t "/websearch" = false).
  { apply not_startsWith. intros [r Hr]. apply Hw. now exists EmptyString, r. }
  destruct (contains_nonempty t "/start" Hs) as [c [t' Hct]]; [discriminate|].
  subst t.
  unfold handlers_invoked.
  rewrite (BotJs_dispatch_text env msg c t' Ht).
  unfold BotJs.re_start, BotJs.re_help. rewrite Es, Eh, Ew. simpl map.
  split; [reflexivity|].
  rewrite (BotJs_onMessage_is_chat env msg (String c t') Ht ltac:(discriminate) S1 S2).
  unfold BotJs.chat. unfold_prims. simpl.
  destruct (generateContent env _ _) as [res|]; simpl;
    [destruct (response_text res) as [out|]; simpl;
     [destruct (saveChat_fails env _); simpl|]|];
    do 3 eexists;
    (split; [reflexivity | split; [simpl; rewrite <- !app_assoc; simpl; reflexivity|]]);
    simpl; rewrite !sent_app; simpl; rewrite ?app_nil_r, <- ?app_assoc; reflexivity.
Qed.

Lemma start_inside_text_witness :
  handlers_invoked (BotJs.bot (Scenario.all_up "Hi!"))
                   (Scenario.text_update "please /start now")
  = [HChat; HRegistration].
Proof.
  refine (proj1 (start_inside_text_dispatch (Scenario.all_up "Hi!")
                   (Scenario.text_update "please /start now") "please /start now"
                   Scenario.empty_world eq_refl _ _ _ _)).
  - now exists "please ", " now".
  - intros [rest H]. discriminate.
  - apply exec_lit_none. reflexivity.
  - apply exec_lit_none. reflexivity.
Defined.

(* ================================================================== *)
(** * The footprint of an update *)
(* ================================================================== *)

Lemma update_first_identity chatId phone us :
  map identity (update_first chatId phone us) = map identity us.
Proof.
  induction us as [|u us IH]; simpl; [reflexivity|].
  destruct (Z.eqb (User.chat_id u) chatId); simpl; [reflexivity | now rewrite IH].
Qed.

Lemma update_first_others chatId phone us u :
  In u us -> User.chat_id u <> chatId -> In u (update_first chatId phone us).
Proof.
  induction us as [|v us IH]; simpl; [auto|].
  intros [->|Hin] Hne.
  - destruct (Z.eqb_spec (User.chat_id u) chatId); [contradiction | now left].
  - destruct (Z.eqb (User.chat_id v) chatId); right; auto.
Qed.

Lemma footprint_refl chatId w : footprint chatId w w.
Proof.
  exists [], [], []. rewrite !app_nil_r. repeat split; auto; constructor.
Qed.

Lemma footprint_trans chatId w1 w2 w3 :
  footprint chatId w1 w2 -> footprint chatId w2 w3 ->
  footprint chatId w1 w3.
Proof.
  intros [t1 [c1 [a1 [H1 [H2 [H3 [H4 [H5 [H6 H7]]]]]]]]]
         [t2 [c2 [a2 [G1 [G2 [G3 [G4 [G5 [G6 G7]]]]]]]]].
  exists (t1 ++ t2)%list, (c1 ++ c2)%list, (a1 ++ a2)%list.
  rewrite G1, G2, G3, H1, H2, H3, !app_assoc, sent_app.
  repeat split; auto; apply Forall_app; split; assumption.
Qed.

Ltac footprint_here :=
  unfold footprint; simpl;
  eexists; eexists; eexists;
  split; [first [reflexivity | symmetry; apply app_nil_r] |
  split; [rewrite <- ?app_assoc; first [reflexivity | symmetry; apply app_nil_r] |
  split; [rewrite ?map_app, ?update_first_identity;
          first [reflexivity | symmetry; apply app_nil_r] |
  split; [repeat constructor |
  split; [simpl; repeat constructor |
  split; [repeat constructor |
          intros ? ? ?; auto using update_first_others, in_or_app ]]]]]].

Lemma BotJs_onMessage_footprint env msg w :
  footprint (Tg.id (Tg.chat msg)) w (snd (BotJs.onMessage env msg w)).
Proof.
  unfold BotJs.onMessage, BotJs.chat. unfold_prims. simpl. cases; footprint_here.
Qed.

Lemma WebhookJs_onMessage_footprint env msg w :
  footprint (Tg.id (Tg.chat msg)) w (snd (WebhookJs.onMessage env msg w)).
Proof.
  unfold WebhookJs.onMessage. unfold_prims. simpl. cases; footprint_here.
Qed.

Lemma BotJs_onHelp_footprint msg caps w :
  footprint (Tg.id (Tg.chat msg)) w (snd (BotJs.onHelp msg caps w)).
Proof. unfold BotJs.onHelp. unfold_prims. simpl. footprint_here. Qed.

Lemma BotJs_onWebsearch_footprint env msg caps w :
  footprint (Tg.id (Tg.chat msg)) w (snd (BotJs.onWebsearch env msg caps w)).
Proof.
  unfold BotJs.onWebsearch. unfold_prims. simpl. cases; footprint_here.
Qed.

Lemma WebhookJs_onWebsearch_footprint env msg caps w :
  footprint (Tg.id (Tg.chat msg)) w (snd (WebhookJs.onWebsearch env msg caps w)).
Proof.
  unfold WebhookJs.onWebsearch. unfold_prims. simpl. cases; footprint_here.
Qed.

Lemma BotJs_onPhoto_footprint env msg w :
  footprint (Tg.id (Tg.chat msg)) w (snd (BotJs.onPhoto env msg w)).
Proof.
  unfold BotJs.onPhoto, BotJs.analyze. unfold_prims. simpl. cases; footprint_here.
Qed.

Lemma WebhookJs_onPhoto_footprint env msg w :
  footprint (Tg.id (Tg.chat msg)) w (snd (WebhookJs.onPhoto env msg w)).
Proof.
  unfold WebhookJs.onPhoto, WebhookJs.analyze. unfold_prims. simpl. cases; footprint_here.
Qed.

Lemma BotJs_onStart_footprint env msg caps w :
  footprint (Tg.id (Tg.chat msg)) w (snd (BotJs.onStart env msg caps w)).
Proof.
  unfold BotJs.onStart. unfold_prims. simpl. cases; footprint_here.
Qed.

Lemma WebhookJs_onStart_footprint env msg caps w :
  footprint (Tg.id (Tg.chat msg)) w (snd (WebhookJs.onStart env msg caps w)).
Proof.
  unfold WebhookJs.onStart. unfold_prims. simpl. cases; footprint_here.
Qed.

Lemma BotJs_onContact_footprint env msg w :
  footprint (Tg.id (Tg.chat msg)) w (snd (BotJs.onContact env msg w)).
Proof.
  unfold BotJs.onContact. unfold_prims. simpl. cases; footprint_here.
Qed.

Lemma WebhookJs_onContact_footprint env msg w :
  footprint (Tg.id (Tg.chat msg)) w (snd (WebhookJs.onContact env msg w)).
Proof.
  unfold WebhookJs.onContact. unfold_prims. simpl. cases; footprint_here.
Qed.

Create HintDb footprints.
#[local] Hint Resolve BotJs_onMessage_footprint WebhookJs_onMessage_footprint
  BotJs_onHelp_footprint BotJs_onWebsearch_footprint WebhookJs_onWebsearch_footprint
  BotJs_onPhoto_footprint WebhookJs_onPhoto_footprint
  BotJs_onStart_footprint WebhookJs_onStart_footprint
  BotJs_onContact_footprint WebhookJs_onContact_footprint : footprints.

Ltac callbacks_have P :=
  unfold dispatch, emitted, matched;
  cbn [listeners textRegexpCallbacks BotJs.bot WebhookJs.bot flat_map];
  repeat match goal with
         | |- Forall _ (_ ++ _) => apply Forall_app; split
         | |- Forall _ (if ?b then _ else _) => destruct b
         | |- Forall _ (match ?x with _ => _ end) => destruct x
         | |- Forall _ [] => constructor
         | |- Forall _ (_ :: _) => constructor; [cbn [snd]; P|]
         end.

Lemma BotJs_callbacks_footprint env msg :
  Forall (fun hc => forall w, footprint (Tg.id (Tg.chat msg)) w (snd (snd hc w)))
         (dispatch (BotJs.bot env) msg).
Proof. callbacks_have ltac:(auto with footprints). Qed.

Lemma WebhookJs_callbacks_footprint env msg :
  Forall (fun hc => forall w, footprint (Tg.id (Tg.chat msg)) w (snd (snd hc w)))
         (dispatch (WebhookJs.bot env) msg).
Proof. callbacks_have ltac:(auto with footprints). Qed.

Lemma run_callback_footprint chatId (c : M unit) (w : World) :
  footprint chatId w (snd (c w)) -> footprint chatId w (run_callback c w).
Proof.
  unfold run_callback. destruct (c w) as [[a|e] w']; simpl; [auto|].
  intros H. apply (footprint_trans _ _ w'); [exact H|].
  exists [], [EUnhandled e], []. simpl. rewrite !app_nil_r.
  repeat split; auto; constructor.
Qed.

Lemma run_callbacks_footprint chatId (cs : list (Handler * M unit)) (w : World) :
  Forall (fun hc => forall w, footprint chatId w (snd (snd hc w))) cs ->
  footprint chatId w (fold_left (fun w c => run_callback (snd c) w) cs w).
Proof.
  intros H. revert w. induction H as [|hc cs Hhc _ IH]; intros w; simpl.
  - apply footprint_refl.
  - eapply footprint_trans; [apply run_callback_footprint, Hhc | apply IH].
Qed.

Lemma processUpdate_footprint env msg w :
  footprint (Tg.id (Tg.chat msg)) w (processUpdate (BotJs.bot env) msg w)
  /\ footprint (Tg.id (Tg.chat msg)) w (processUpdate (WebhookJs.bot env) msg w).
Proof.
  split; unfold processUpdate; apply run_callbacks_footprint;
    [apply BotJs_callbacks_footprint | apply WebhookJs_callbacks_footprint].
Qed.

(** X7: whatever the collaborators answer, the processing of an update
    writes and speaks only for the chat of that update, in both variants:
    the [Chat] collection and the trace are extended, never rewritten;
    every turn appended carries the chat_id of the update; and every
    message sent goes to the chat the update came from. *)
Theorem update_effects_stay_in_chat env msg w :
  let chatId := Tg.id (Tg.chat msg) in
  forall w',
    w' = processUpdate (BotJs.bot env) msg w
    \/ w' = processUpdate (WebhookJs.bot env) msg w ->
    exists turns calls,
      chats w' = (chats w ++ turns)%list
      /\ trace w' = (trace w ++ calls)%list
      /\ Forall (fun t => Chat.chat_id t = chatId) turns
      /\ Forall (fun m => fst m = chatId) (sent calls).
Proof.
  intros chatId w' Hw'.
  assert (H : footprint chatId w w').
  { destruct Hw' as [-> | ->]; apply processUpdate_footprint. }
  destruct H as [turns [calls [added [H1 [H2 [_ [H4 [H5 _]]]]]]]].
  exists turns, calls. auto.
Qed.

Lemma update_effects_witness :
  exists turns calls,
    chats (processUpdate (WebhookJs.bot (Scenario.all_up "Hi!"))
                         (Scenario.photo_update Scenario.two_sizes)
                         Scenario.registered_world)
    = (chats Scenario.registered_world ++ turns)%list
    /\ trace (processUpdate (WebhookJs.bot (Scenario.all_up "Hi!"))
                            (Scenario.photo_update Scenario.two_sizes)
                            Scenario.registered_world)
       = (trace Scenario.registered_world ++ calls)%list
    /\ Forall (fun t => Chat.chat_id t = 42%Z) turns
    /\ Forall (fun m => fst m = 42%Z) (sent calls).
Proof.
  exact (update_effects_stay_in_chat (Scenario.all_up "Hi!")
           (Scenario.photo_update Scenario.two_sizes) Scenario.registered_world
           _ (or_intror eq_refl)).
Defined.

(** X8: the processing of an update never touches the record of another
    chat and never removes or renames a record, in both variants: every
    record whose chat_id is not that of the update is still in the [User]
    collection, unchanged, phone number included; the chat_id, first_name
    and username of the records that existed are what they were, in the
    same order; and the records added, if any, are for the chat of the
    update. *)
Theorem update_leaves_other_records env msg w :
  let chatId := Tg.id (Tg.chat msg) in
  forall w',
    w' = processUpdate (BotJs.bot env) msg w
    \/ w' = processUpdate (WebhookJs.bot env) msg w ->
    (forall u, In u (users w) -> User.chat_id u <> chatId -> In u (users w'))
    /\ exists added,
        map identity (users w') = (map identity (users w) ++ added)%list
        /\ Forall (fun i => fst (fst i) = chatId) added.
Proof.
  intros chatId w' Hw'.
  assert (H : footprint chatId w w').
  { destruct Hw' as [-> | ->]; apply processUpdate_footprint. }
  destruct H as [turns [calls [added [_ [_ [H3 [_ [_ [H6 H7]]]]]]]]].
  split; [exact H7 | exists added; auto].
Qed.

Lemma update_leaves_other_records_witness :
  In Scenario.ana_doc
     (users (processUpdate (BotJs.bot (Scenario.all_up "Hi!"))
                           {| Tg.chat := {| Tg.id := 7; Tg.first_name := Some "Bo";
                                            Tg.username := None |};
                              Tg.text := None;
                              Tg.contact := Some {| Tg.phone_number := "+15550111" |};
                              Tg.photo := None |}
                           Scenario.registered_world)).
Proof.
  refine (proj1 (update_leaves_other_records (Scenario.all_up "Hi!") _
                   Scenario.registered_world _ (or_introl eq_refl))
                Scenario.ana_doc _ _).
  - left. reflexivity.
  - discriminate.
Defined.

Lemma process_all_grows (bot : Env -> Bot) updates :
  (forall env msg w, footprint (Tg.id (Tg.chat msg)) w
                               (processUpdate (bot env) msg w)) ->
  forall w,
  exists turns added,
    chats (process_all bot updates w) = (chats w ++ turns)%list
    /\ map identity (users (process_all bot updates w))
       = (map identity (users w) ++ added)%list.
Proof.
  intros Hbot. unfold process_all.
  induction updates as [|[env msg] updates IH]; intros w; simpl.
  - exists [], []. now rewrite !app_nil_r.
  - destruct (IH (processUpdate (bot env) msg w)) as [t2 [a2 [H1 H2]]].
    destruct (Hbot env msg w) as [t1 [c1 [a1 [G1 [_ [G3 _]]]]]].
    exists (t1 ++ t2)%list, (a1 ++ a2)%list.
    rewrite H1, H2, G1, G3, !app_assoc. auto.
Qed.

(** X9: nothing the bot stored is ever deleted or rewritten: after any
    run of either variant, over updates of any chats and with any answers
    of the collaborators, the [Chat] collection is the old one followed by
    new turns, and the [User] collection holds the old records, in order
    and with their chat_id, first_name and username, followed by new
    ones; so a chat that had a record still has one. *)
Theorem stored_data_only_grows (updates : list (Env * Tg.Message)) (w : World) :
  forall w',
    w' = process_all BotJs.bot updates w \/ w' = process_all WebhookJs.bot updates w ->
    (exists turns, chats w' = (chats w ++ turns)%list)
    /\ (exists added, map identity (users w') = (map identity (users w) ++ added)%list)
    /\ (forall chatId, registered chatId (users w) -> registered chatId (users w')).
Proof.
  intros w' Hw'.
  assert (H : exists turns added,
             chats w' = (chats w ++ turns)%list
             /\ map identity (users w') = (map identity (users w) ++ added)%list).
  { destruct Hw' as [-> | ->]; apply process_all_grows;
      intros env msg w0; apply processUpdate_footprint. }
  destruct H as [turns [added [H1 H2]]].
  split; [eauto | split; [eauto|]].
  intros chatId [u [Hin Hu]].
  assert (Hi : In (identity u) (map identity (users w'))).
  { rewrite H2. apply in_or_app. left. now apply in_map. }
  apply in_map_iff in Hi. destruct Hi as [v [Hv Hin']].
  exists v. split; [exact Hin'|].
  unfold identity in Hv. inversion Hv. congruence.
Qed.

Lemma stored_data_only_grows_witness :
  registered 42 (users (process_all BotJs.bot
                          [ (Scenario.all_up "Hi!", Scenario.text_update "/start");
                            (Scenario.chats_down "Hi!", Scenario.text_update "hello");
                            (Scenario.users_down "Hi!", Scenario.contact_update "+15550100") ]
                          Scenario.registered_world)).
Proof.
  refine (proj2 (proj2 (stored_data_only_grows _ Scenario.registered_world _
                          (or_introl eq_refl))) 42%Z _).
  exists Scenario.ana_doc. split; [left; reflexivity | reflexivity].
Defined.

(* ================================================================== *)
(** * What a callback stores and what it says *)
(* ================================================================== *)

Ltac turn_and_reply :=
  unfold turn_matches_reply; simpl; rewrite !sent_app; simpl; rewrite ?app_nil_r;
  first [ left; split; reflexivity
        | right; eexists; eexists;
          split; [reflexivity |
          split; [reflexivity |
          split; [reflexivity |
          split; [reflexivity | simpl; eauto ]]]] ].

(** X11: what is stored and what the user is told agree, in every
    callback that calls the model and whatever the collaborators answer:
    either no turn is stored and the one message sent is the fixed error
    of the handler, or exactly one turn is stored, for the chat and the
    input of the update, and the one message sent shows the stored
    response (as it is for the chat, under the results for the search,
    after the marker for the image). *)
Theorem stored_turn_matches_reply env msg w :
  let chatId := Tg.id (Tg.chat msg) in
  (forall text,
      turn_matches_reply chatId text BotJs.chat_apology
        (fun response reply => reply = response)
        w (snd (BotJs.chat env chatId text w)))
  /\ turn_matches_reply chatId (Tg.text msg) WebhookJs.chat_apology
       (fun response reply => reply = response)
       w (snd (WebhookJs.onMessage env msg w))
  /\ (forall match_,
         turn_matches_reply chatId (Some (nth 0 match_ EmptyString)) BotJs.search_error
           (fun response reply => exists results, reply = BotJs.search_reply results response)
           w (snd (BotJs.onWebsearch env msg match_ w))
         /\ turn_matches_reply chatId (Some (nth 0 match_ EmptyString))
              WebhookJs.search_error
              (fun response reply =>
                 exists results, reply = WebhookJs.search_reply results response)
              w (snd (WebhookJs.onWebsearch env msg match_ w)))
  /\ (forall fileId,
         turn_matches_reply chatId (Some "image") BotJs.image_error
           (fun response reply => reply = BotJs.image_reply response)
           w (snd (BotJs.analyze env chatId fileId w))
         /\ turn_matches_reply chatId (Some "image") WebhookJs.image_error
              (fun response reply => reply = WebhookJs.image_reply response)
              w (snd (WebhookJs.analyze env chatId fileId w))).
Proof.
  intros chatId. subst chatId. split; [|split; [|split]].
  - intros text. unfold BotJs.chat. unfold_prims. simpl. cases; turn_and_reply.
  - unfold WebhookJs.onMessage. unfold_prims. simpl. cases; turn_and_reply.
  - intros match_. split.
    + unfold BotJs.onWebsearch. unfold_prims. simpl. cases; turn_and_reply.
    + unfold WebhookJs.onWebsearch. unfold_prims. simpl. cases; turn_and_reply.
  - intros fileId. split.
    + unfold BotJs.analyze. unfold_prims. simpl. cases; turn_and_reply.
    + unfold WebhookJs.analyze. unfold_prims. simpl. cases; turn_and_reply.
Qed.

(* ================================================================== *)
(** * Which failures leave a callback *)
(* ================================================================== *)

(** X12: no failure of a collaborator leaves the callbacks that wrap their
    work in [try]/[catch]: whatever the model, the search, Telegram's file
    service and the [Chat] collection answer, the message, search and help
    callbacks of both variants return normally, and so does the photo
    callback on a photo update that has at least one size. *)
Theorem guarded_callbacks_never_reject env msg w :
  fst (BotJs.onMessage env msg w) = Returned tt
  /\ fst (WebhookJs.onMessage env msg w) = Returned tt
  /\ (forall match_,
         fst (BotJs.onHelp msg match_ w) = Returned tt
         /\ fst (BotJs.onWebsearch env msg match_ w) = Returned tt
         /\ fst (WebhookJs.onWebsearch env msg match_ w) = Returned tt)
  /\ (forall smaller largest,
         Tg.photo msg = Some (smaller ++ [largest])%list ->
         fst (BotJs.onPhoto env msg w) = Returned tt
         /\ fst (WebhookJs.onPhoto env msg w) = Returned tt).
Proof.
  split; [|split; [|split]].
  - unfold BotJs.onMessage, BotJs.chat. unfold_prims. simpl. cases; reflexivity.
  - unfold WebhookJs.onMessage. unfold_prims. simpl. cases; reflexivity.
  - intros match_. repeat split.
    + unfold BotJs.onWebsearch. unfold_prims. simpl. cases; reflexivity.
    + unfold WebhookJs.onWebsearch. unfold_prims. simpl. cases; reflexivity.
  - intros smaller largest Hp.
    rewrite (BotJs_onPhoto_is_analyze env msg _ largest Hp (last_elem_app smaller largest)).
    rewrite (WebhookJs_onPhoto_is_analyze env msg _ largest Hp (last_elem_app smaller largest)).
    split.
    + unfold BotJs.analyze. unfold_prims. simpl. cases; reflexivity.
    + unfold WebhookJs.analyze. unfold_prims. simpl. cases; reflexivity.
Qed.

Lemma guarded_callbacks_witness :
  fst (BotJs.onPhoto Scenario.ai_down (Scenario.photo_update Scenario.two_sizes)
                     Scenario.empty_world) = Returned tt
  /\ fst (WebhookJs.onPhoto Scenario.ai_down (Scenario.photo_update Scenario.two_sizes)
                            Scenario.empty_world) = Returned tt.
Proof.
  exact (proj2 (proj2 (proj2 (guarded_callbacks_never_reject Scenario.ai_down
                                (Scenario.photo_update Scenario.two_sizes)
                                Scenario.empty_world)))
               [ {| Tg.file_id := "small" |} ] {| Tg.file_id := "large" |} eq_refl).
Defined.

(** X13: the registration and contact callbacks call the store outside
    any [try]: they reject exactly when that call rejects (the lookup, or
    the write of the new record, for the registration; the update, for the
    contact), nothing else makes them reject, and when they do they have
    sent no message and have left the [User] collection as it was. *)
Theorem store_failures_escape env msg w :
  let chatId := Tg.id (Tg.chat msg) in
  let doc := User.mk chatId (Tg.first_name (Tg.chat msg)) (Tg.username (Tg.chat msg)) None in
  (forall match_ c,
      c = BotJs.onStart env msg match_ \/ c = WebhookJs.onStart env msg match_ ->
      (fst (c w) = Thrown StoreError
       <-> findOne_fails env chatId = true
           \/ (~ registered chatId (users w) /\ saveUser_fails env doc = true))
      /\ (fst (c w) = Returned tt \/ fst (c w) = Thrown StoreError)
      /\ (fst (c w) = Thrown StoreError ->
          users (snd (c w)) = users w /\ sent (trace (snd (c w))) = sent (trace w)))
  /\ (forall contact c,
         Tg.contact msg = Some contact ->
         c = BotJs.onContact env msg \/ c = WebhookJs.onContact env msg ->
         (fst (c w) = Thrown StoreError
          <-> updateOne_fails env chatId (Tg.phone_number contact) = true)
         /\ (fst (c w) = Returned tt \/ fst (c w) = Thrown StoreError)
         /\ (fst (c w) = Thrown StoreError ->
             users (snd (c w)) = users w /\ sent (trace (snd (c w))) = sent (trace w))).
Proof.
  intros chatId doc. subst chatId doc. split.
  - intros match_ c Hc.
    assert (Hreg : find_user (Tg.id (Tg.chat msg)) (users w) = None
                   <-> ~ registered (Tg.id (Tg.chat msg)) (users w))
      by apply find_user_none.
    destruct Hc as [-> | ->];
      [unfold BotJs.onStart | unfold WebhookJs.onStart];
      unfold_prims; simpl;
      destruct (findOne_fails env _); simpl;
      try (destruct (find_user _ (users w)) eqn:E; simpl);
      try (destruct (saveUser_fails env _); simpl);
      rewrite ?sent_app; simpl; rewrite ?app_nil_r;
      (split; [split; [intros H; try discriminate; auto
                      | intros [H | [H1 H2]]; try discriminate; auto;
                        try (exfalso; apply H1; apply Hreg; discriminate)]
              | split; [auto | intros H; try discriminate; auto]]);
      try (right; split; [apply Hreg; reflexivity | reflexivity]);
      try (exfalso; apply Hreg in H1; discriminate).
  - intros contact c Hcontact Hc.
    destruct Hc as [-> | ->];
      [unfold BotJs.onContact | unfold WebhookJs.onContact];
      unfold_prims; rewrite Hcontact; simpl;
      destruct (updateOne_fails env _ _); simpl;
      rewrite ?sent_app; simpl; rewrite ?app_nil_r;
      (split; [split; intros H; try discriminate; auto
              | split; [auto | intros H; try discriminate; auto]]).
Qed.

Lemma store_failures_witness :
  fst (BotJs.onStart (Scenario.users_down "Hi!") (Scenario.text_update "/start") []
                     Scenario.empty_world) = Thrown StoreError.
Proof.
  apply (proj1 (proj1 (store_failures_escape (Scenario.users_down "Hi!")
                         (Scenario.text_update "/start") Scenario.empty_world)
                      [] _ (or_introl eq_refl))).
  left. reflexivity.
Defined.

(* ================================================================== *)
(** * The photo callback picks the last size *)
(* ================================================================== *)

Lemma analyze_starts_with_getFile env chatId fileId w :
  (exists calls,
      trace (snd (BotJs.analyze env chatId fileId w))
      = (trace w ++ EGetFile fileId :: calls)%list)
  /\ (exists calls,
         trace (snd (WebhookJs.analyze env chatId fileId w))
         = (trace w ++ EGetFile fileId :: calls)%list).
Proof.
  split; [unfold BotJs.analyze | unfold WebhookJs.analyze];
    unfold_prims; simpl; cases; eexists; rewrite <- ?app_assoc; reflexivity.
Qed.

(** X14: of the sizes of a photo update only the last one counts: the
    photo callback of either variant first asks Telegram for the file of
    the last size, and two updates of the same chat whose size lists end
    with the same size are handled in exactly the same way, whatever the
    sizes before it. *)
Theorem last_size_is_analyzed env msg msg' smaller smaller' largest w :
  Tg.chat msg' = Tg.chat msg ->
  Tg.photo msg = Some (smaller ++ [largest])%list ->
  Tg.photo msg' = Some (smaller' ++ [largest])%list ->
  BotJs.onPhoto env msg' w = BotJs.onPhoto env msg w
  /\ WebhookJs.onPhoto env msg' w = WebhookJs.onPhoto env msg w
  /\ (exists calls,
         trace (snd (BotJs.onPhoto env msg w))
         = (trace w ++ EGetFile (Tg.file_id largest) :: calls)%list)
  /\ (exists calls,
         trace (snd (WebhookJs.onPhoto env msg w))
         = (trace w ++ EGetFile (Tg.file_id largest) :: calls)%list).
Proof.
  intros Hc Hp Hp'.
  rewrite (BotJs_onPhoto_is_analyze env msg _ largest Hp (last_elem_app smaller largest)).
  rewrite (BotJs_onPhoto_is_analyze env msg' _ largest Hp' (last_elem_app smaller' largest)).
  rewrite (WebhookJs_onPhoto_is_analyze env msg _ largest Hp (last_elem_app smaller largest)).
  rewrite (WebhookJs_onPhoto_is_analyze env msg' _ largest Hp'
             (last_elem_app smaller' largest)).
  rewrite Hc. repeat split; apply analyze_starts_with_getFile.
Qed.

Lemma last_size_witness :
  BotJs.onPhoto (Scenario.all_up "A cat.")
                (Scenario.photo_update [ {| Tg.file_id := "large" |} ]) Scenario.empty_world
  = BotJs.onPhoto (Scenario.all_up "A cat.")
                  (Scenario.photo_update Scenario.two_sizes) Scenario.empty_world.
Proof.
  exact (proj1 (last_size_is_analyzed (Scenario.all_up "A cat.")
                  (Scenario.photo_update Scenario.two_sizes)
                  (Scenario.photo_update [ {| Tg.file_id := "large" |} ])
                  [ {| Tg.file_id := "small" |} ] [] {| Tg.file_id := "large" |}
                  Scenario.empty_world eq_refl eq_refl eq_refl)).
Defined.

(* ================================================================== *)
(** * The message callback of the webhook variant *)
(* ================================================================== *)

Lemma WebhookJs_dispatch_head env msg :
  exists rest, dispatch (WebhookJs.bot env) msg = (HChat, WebhookJs.onMessage env msg) :: rest.
Proof. unfold dispatch, emitted. simpl. eauto. Qed.

(** X15: the message callback of the webhook variant has no test on the
    update: whatever the update is (a text, a command, a contact, a photo,
    or none of these) it is among the callbacks invoked, the first of
    them; and whatever the collaborators answer, the callback taken on
    its own begins with a call to the model on the text of the update,
    missing or not, returns normally and sends exactly one message, to
    the chat of the update.  Nothing is said of the other callbacks of
    the update, nor of the order of their messages. *)
Theorem webhook_answers_every_update env msg w :
  (exists others,
      dispatch (WebhookJs.bot env) msg = (HChat, WebhookJs.onMessage env msg) :: others)
  /\ exists r w1 more,
      WebhookJs.onMessage env msg w = (Returned tt, w1)
      /\ trace w1
         = (trace w
              ++ EGenerate "gemini-1.5-pro" (ReqContents "user" [PText (Tg.text msg)])
              :: more)%list
      /\ sent (trace w1) = (sent (trace w) ++ [(Tg.id (Tg.chat msg), r)])%list.
Proof.
  split; [apply WebhookJs_dispatch_head | apply WebhookJs_onMessage_calls_model].
Qed.

(* ================================================================== *)
(** * Registration, then the contact *)
(* ================================================================== *)

Lemma find_user_snoc chatId us doc :
  find_user chatId us = None -> User.chat_id doc = chatId ->
  find_user chatId (us ++ [doc]) = Some doc.
Proof.
  intros Hf Hd. induction us as [|u us IH]; simpl in *.
  - rewrite Hd, Z.eqb_refl. reflexivity.
  - destruct (Z.eqb (User.chat_id u) chatId); [discriminate | auto].
Qed.

Lemma update_first_snoc chatId phone us doc :
  find_user chatId us = None -> User.chat_id doc = chatId ->
  update_first chatId phone (us ++ [doc])
  = (us ++ [User.mk (User.chat_id doc) (User.first_name doc) (User.username doc)
                    (Some phone)])%list.
Proof.
  intros Hf Hd. induction us as [|u us IH]; simpl in *.
  - rewrite Hd, Z.eqb_refl. reflexivity.
  - destruct (Z.eqb (User.chat_id u) chatId); [discriminate | now rewrite IH].
Qed.

(** X16: registration and contact sharing compose: when a chat without
    record sends the registration trigger and then shares a contact, the
    store answering both times, the record found for the chat afterwards
    is the one made from the first update (chat_id, first_name, username)
    with the shared phone number, in either variant. *)
Theorem register_then_share_contact env env' msg msg' match_ contact w :
  let chatId := Tg.id (Tg.chat msg) in
  Tg.chat msg' = Tg.chat msg ->
  Tg.contact msg' = Some contact ->
  ~ registered chatId (users w) ->
  findOne_fails env chatId = false ->
  saveUser_fails env (User.mk chatId (Tg.first_name (Tg.chat msg))
                              (Tg.username (Tg.chat msg)) None) = false ->
  updateOne_fails env' chatId (Tg.phone_number contact) = false ->
  forall start share,
    (start = BotJs.onStart env msg match_ /\ share = BotJs.onContact env' msg')
    \/ (start = WebhookJs.onStart env msg match_ /\ share = WebhookJs.onContact env' msg') ->
    find_user chatId (users (snd (share (snd (start w)))))
    = Some (User.mk chatId (Tg.first_name (Tg.chat msg)) (Tg.username (Tg.chat msg))
                    (Some (Tg.phone_number contact))).
Proof.
  intros chatId Hchat Hcontact Hn Hf Hs Hu start share Hc. subst chatId.
  apply find_user_none in Hn.
  destruct Hc as [[-> ->] | [-> ->]];
    [unfold BotJs.onStart, BotJs.onContact | unfold WebhookJs.onStart, WebhookJs.onContact];
    unfold_prims; simpl; rewrite Hf; simpl; rewrite Hn; simpl; rewrite Hs; simpl;
    rewrite Hcontact, Hchat; simpl; rewrite Hu; simpl;
    (rewrite update_first_snoc; [| exact Hn | reflexivity]); simpl;
    apply find_user_snoc; auto.
Qed.

Lemma register_then_share_witness :
  find_user 42 (users (snd (BotJs.onContact (Scenario.all_up "Hi!")
                              (Scenario.contact_update "+15550100")
                              (snd (BotJs.onStart (Scenario.all_up "Hi!")
                                      (Scenario.text_update "/start") []
                                      Scenario.empty_world)))))
  = Some (User.mk 42 (Some "Ana") (Some "ana") (Some "+15550100")).
Proof.
  refine (register_then_share_contact (Scenario.all_up "Hi!") (Scenario.all_up "Hi!")
            (Scenario.text_update "/start") (Scenario.contact_update "+15550100") []
            {| Tg.phone_number := "+15550100" |} Scenario.empty_world
            eq_refl eq_refl _ eq_refl eq_refl eq_refl _ _ (or_introl (conj eq_refl eq_refl))).
  intros [u [[] _]].
Defined.

(* ================================================================== *)
(** * No retry *)
(* ================================================================== *)

Lemma generations_app (a b : list Event) :
  generations (a ++ b) = generations a + generations b.
Proof.
  induction a as [|e a IH]; simpl; [reflexivity|].
  destruct e; simpl; now rewrite ?IH.
Qed.

Ltac at_most_one_call :=
  unfold_prims; simpl; cases; simpl; rewrite ?generations_app; simpl; lia.

Lemma BotJs_callbacks_generations env msg :
  Forall (fun hc => forall w,
              generations (trace (snd (snd hc w))) <= generations (trace w) + 1)
         (dispatch (BotJs.bot env) msg).
Proof.
  callbacks_have ltac:(
    intros w;
    first [ unfold BotJs.onMessage, BotJs.chat; at_most_one_call
          | unfold BotJs.onContact; at_most_one_call
          | unfold BotJs.onPhoto, BotJs.analyze; at_most_one_call
          | unfold BotJs.onStart; at_most_one_call
          | unfold BotJs.onHelp; at_most_one_call
          | unfold BotJs.onWebsearch; at_most_one_call ]).
Qed.

Lemma WebhookJs_callbacks_generations env msg :
  Forall (fun hc => forall w,
              generations (trace (snd (snd hc w))) <= generations (trace w) + 1)
         (dispatch (WebhookJs.bot env) msg).
Proof.
  callbacks_have ltac:(
    intros w;
    first [ unfold WebhookJs.onMessage; at_most_one_call
          | unfold WebhookJs.onContact; at_most_one_call
          | unfold WebhookJs.onPhoto, WebhookJs.analyze; at_most_one_call
          | unfold WebhookJs.onStart; at_most_one_call
          | unfold WebhookJs.onWebsearch; at_most_one_call ]).
Qed.

Lemma run_callbacks_generations (cs : list (Handler * M unit)) (w : World) :
  Forall (fun hc => forall w,
              generations (trace (snd (snd hc w))) <= generations (trace w) + 1) cs ->
  generations (trace (fold_left (fun w c => run_callback (snd c) w) cs w))
  <= generations (trace w) + List.length cs.
Proof.
  intros H. revert w. induction H as [|hc cs Hhc _ IH]; intros w; simpl; [lia|].
  specialize (IH (run_callback (snd hc) w)). specialize (Hhc w).
  assert (Hr : generations (trace (run_callback (snd hc) w))
               = generations (trace (snd (snd hc w)))).
  { unfold run_callback. destruct (snd hc w) as [[a|e] w']; simpl; [reflexivity|].
    rewrite generations_app. simpl. lia. }
  unfold M in *. lia.
Qed.

(** X17: no call to the model is retried: whatever the collaborators
    answer, each callback invoked for an update calls the model at most
    once, so the processing of an update issues at most as many model
    calls as callbacks were invoked, in both variants. *)
Theorem no_model_call_is_retried env msg w :
  Forall (fun hc => forall w0,
              generations (trace (snd (snd hc w0))) <= generations (trace w0) + 1)
         (dispatch (BotJs.bot env) msg ++ dispatch (WebhookJs.bot env) msg)
  /\ generations (trace (processUpdate (BotJs.bot env) msg w))
     <= generations (trace w) + List.length (handlers_invoked (BotJs.bot env) msg)
  /\ generations (trace (processUpdate (WebhookJs.bot env) msg w))
     <= generations (trace w) + List.length (handlers_invoked (WebhookJs.bot env) msg).
Proof.
  pose proof (BotJs_callbacks_generations env msg) as Hb.
  pose proof (WebhookJs_callbacks_generations env msg) as Hw.
  split; [apply Forall_app; split; assumption|].
  unfold handlers_invoked, processUpdate. rewrite !length_map.
  split; apply run_callbacks_generations; assumption.
Qed.

(* ================================================================== *)
(** * The dispatch table *)
(* ================================================================== *)

Lemma exec_lit_decide (p t : string) :
  (Js.exec (Js.lit p) t = Some [] /\ contains t p)
  \/ (Js.exec (Js.lit p) t = None /\ ~ contains t p).
Proof.
  destruct (exec_lit_cases p t) as [E|E]; [left | right]; split; auto.
  - now apply exec_lit_contains.
  - now apply exec_lit_none.
Qed.

Lemma exec_websearch_decide (t : string) :
  (exists caps, Js.exec BotJs.re_websearch t = Some caps /\ has_search_argument t)
  \/ (Js.exec BotJs.re_websearch t = None /\ ~ has_search_argument t).
Proof.
  destruct (Js.exec BotJs.re_websearch t) as [caps|] eqn:E.
  - left. exists caps. split; [reflexivity|]. apply exec_websearch_iff. eauto.
  - right. split; [reflexivity|]. intros H. apply exec_websearch_iff in H.
    destruct H as [caps H]. congruence.
Qed.

(** X18: the handlers of a text are all those whose trigger it holds, not
    the first one: for an update with a non-empty text the callbacks
    invoked are the message callback, always, the registration callback
    when the text contains [/start], the help callback ([bot.js] only)
    when it contains [/help], and the search callback when [/websearch ]
    is followed by an argument (a character that does not end the line);
    no other callback is invoked. *)
Theorem handlers_of_a_text env msg t h :
  Tg.text msg = Some t ->
  t <> EmptyString ->
  (In h (handlers_invoked (BotJs.bot env) msg)
   <-> h = HChat
       \/ (h = HRegistration /\ contains t "/start")
       \/ (h = HHelp /\ contains t "/help")
       \/ (h = HSearch /\ has_search_argument t))
  /\ (In h (handlers_invoked (WebhookJs.bot env) msg)
      <-> h = HChat
          \/ (h = HRegistration /\ contains t "/start")
          \/ (h = HSearch /\ has_search_argument t)).
Proof.
  intros Ht Hne. destruct t as [|c t]; [congruence|].
  unfold handlers_invoked.
  rewrite (BotJs_dispatch_text env msg c t Ht), (WebhookJs_dispatch_text env msg c t Ht).
  unfold BotJs.re_start, BotJs.re_help, WebhookJs.re_start.
  change WebhookJs.re_websearch with BotJs.re_websearch.
  destruct (exec_lit_decide "/start" (String c t)) as [[Es Hs] | [Es Hs]];
    destruct (exec_lit_decide "/help" (String c t)) as [[Eh Hh] | [Eh Hh]];
    destruct (exec_websearch_decide (String c t)) as [[caps [Ew Hw]] | [Ew Hw]];
    rewrite Es, Eh, Ew; simpl;
    split; (split; [intros H; repeat (destruct H as [H|H]; [subst h; tauto|]); contradiction
                   | intros H; destruct h; intuition discriminate]).
Qed.

Lemma handlers_of_a_text_witness :
  In HSearch (handlers_invoked (BotJs.bot Scenario.ai_down)
                               (Scenario.text_update "/start then /websearch cats")).
Proof.
  apply (proj1 (handlers_of_a_text Scenario.ai_down
                  (Scenario.text_update "/start then /websearch cats")
                  "/start then /websearch cats" HSearch eq_refl ltac:(discriminate))).
  right. right. right. split; [reflexivity|].
  exists "/start then ", "cats". repeat split. discriminate.
Defined.

(** X19: an update without text is offered to the message callback and
    to the callback of its kind, in both variants: a contact update to
    the contact callback, a photo update (without contact) to the photo
    callback.  In [bot.js] the message callback returns at once, so the
    update is processed by the callback of its kind alone; in the webhook
    variant the message callback does not: it calls the model with the
    missing text and sends a message of its own. *)
Theorem updates_without_text env msg w :
  Js.truthy (Tg.text msg) = false ->
  (forall contact,
      Tg.contact msg = Some contact ->
      handlers_invoked (BotJs.bot env) msg = [HChat; HContact]
      /\ handlers_invoked (WebhookJs.bot env) msg = [HChat; HContact]
      /\ processUpdate (BotJs.bot env) msg w = run_callback (BotJs.onContact env msg) w)
  /\ (forall sizes,
         Tg.contact msg = None ->
         Tg.photo msg = Some sizes ->
         handlers_invoked (BotJs.bot env) msg = [HChat; HImage]
         /\ handlers_invoked (WebhookJs.bot env) msg = [HChat; HImage]
         /\ processUpdate (BotJs.bot env) msg w = run_callback (BotJs.onPhoto env msg) w)
  /\ BotJs.onMessage env msg w = (Returned tt, w)
  /\ exists r w1 more,
      WebhookJs.onMessage env msg w = (Returned tt, w1)
      /\ trace w1
         = (trace w
              ++ EGenerate "gemini-1.5-pro" (ReqContents "user" [PText (Tg.text msg)])
              :: more)%list
      /\ sent (trace w1) = (sent (trace w) ++ [(Tg.id (Tg.chat msg), r)])%list.
Proof.
  intros Ht.
  pose proof (BotJs_onMessage_without_text env msg w Ht) as Hm.
  assert (Hr : run_callback (BotJs.onMessage env msg) w = w)
    by (unfold run_callback; now rewrite Hm).
  split; [|split; [|split; [exact Hm | apply WebhookJs_onMessage_calls_model]]].
  - intros contact Hc. unfold handlers_invoked, processUpdate, dispatch, message_type.
    rewrite Ht, Hc, !(matched_without_text _ msg Ht). unfold emitted. simpl.
    rewrite Hr. auto.
  - intros sizes Hc Hp. unfold handlers_invoked, processUpdate, dispatch, message_type.
    rewrite Ht, Hc, Hp, !(matched_without_text _ msg Ht). unfold emitted. simpl.
    rewrite Hr. auto.
Qed.

Lemma updates_without_text_witness :
  processUpdate (BotJs.bot (Scenario.all_up "Hi!")) (Scenario.contact_update "+15550100")
                Scenario.registered_world
  = run_callback (BotJs.onContact (Scenario.all_up "Hi!")
                                  (Scenario.contact_update "+15550100"))
                 Scenario.registered_world.
Proof.
  exact (proj2 (proj2 (proj1 (updates_without_text (Scenario.all_up "Hi!")
                                (Scenario.contact_update "+15550100")
                                Scenario.registered_world eq_refl)
                             {| Tg.phone_number := "+15550100" |} eq_refl))).
Defined.

(* ================================================================== *)
(** * A contact from a chat without record *)
(* ================================================================== *)

Lemma update_first_unregistered chatId phone us :
  find_user chatId us = None -> update_first chatId phone us = us.
Proof.
  induction us as [|u us IH]; simpl; [reflexivity|].
  destruct (Z.eqb (User.chat_id u) chatId); [discriminate|].
  intros H. now rewrite IH.
Qed.

(** X20: the contact callback does not create records: when the chat of a
    contact update has no record and the store answers, the [User]
    collection is left exactly as it was, so the phone number is stored
    nowhere, and the confirmation that it was saved is sent all the
    same. *)
Theorem contact_without_record_is_lost env msg contact w :
  let chatId := Tg.id (Tg.chat msg) in
  let phone := Tg.phone_number contact in
  Tg.contact msg = Some contact ->
  ~ registered chatId (users w) ->
  updateOne_fails env chatId phone = false ->
  BotJs.onContact env msg w
  = (Returned tt,
     extend w [] [EUpdateOne chatId phone;
                  ESend chatId BotJs.phone_saved (Some BotJs.hide_keyboard)])
  /\ WebhookJs.onContact env msg w
     = (Returned tt,
        extend w [] [EUpdateOne chatId phone; ESend chatId WebhookJs.phone_saved None]).
Proof.
  intros chatId phone Hc Hn Hu. subst chatId phone.
  apply find_user_none in Hn.
  unfold BotJs.onContact, WebhookJs.onContact. unfold_prims. rewrite Hc. simpl.
  rewrite Hu. simpl. rewrite (update_first_unregistered _ _ _ Hn).
  unfold extend. simpl. rewrite <- !app_assoc, app_nil_r. simpl.
  destruct w; split; reflexivity.
Qed.

Lemma contact_without_record_witness :
  BotJs.onContact (Scenario.all_up "Hi!") (Scenario.contact_update "+15550100")
                  Scenario.empty_world
  = (Returned tt,
     extend Scenario.empty_world []
            [EUpdateOne 42 "+15550100";
             ESend 42 BotJs.phone_saved (Some BotJs.hide_keyboard)]).
Proof.
  refine (proj1 (contact_without_record_is_lost (Scenario.all_up "Hi!")
                   (Scenario.contact_update "+15550100")
                   {| Tg.phone_number := "+15550100" |} Scenario.empty_world
                   eq_refl _ eq_refl)).
  intros [u [[] _]].
Defined.

